(** * The report endpoint of backend/server.js

    A shallow embedding of the POST /api/generate-report handler: the
    JavaScript values the handler receives from the JSON body parser, the
    credential check, the field validation, the two prompt-building nodes,
    the two-node state graph that sequences them, and the responses.  The
    text-generation provider and the graph library are outside the program:
    the provider is a parameter, the graph library is modelled as the
    handler relies on it. *)

From Stdlib Require Import Ascii.
From stdpp Require Import gmap strings list fin_maps pretty.

#[local] Set Warnings "-register-all".
Local Open Scope string_scope.

(** ** JavaScript values *)

(** A number as [Number::toString] sees it.  A finite number other than
    zero is given by its sign and by the integers [s] and [n] of the
    conversion: [s] holds the digits of the shortest decimal that reads back
    as the number, and the number is [0.s] times ten to the [n]: 7 is
    [s = 7, n = 1], 10 is [s = 1, n = 2], 7.5 is [s = 75, n = 1] and 1e21 is
    [s = 1, n = 22].  [-0] and [0] behave alike under [!], template
    conversion and JSON.stringify, and are both [Zero]; a JSON text such as
    1e400 parses to an infinity; no JSON text parses to NaN. *)
Inductive JsNumber : Type :=
| Zero
| Finite (negative : bool) (s : positive) (n : Z)
| Infinite (negative : bool).

(** The values a parsed JSON body can hold, plus [undefined], which is what
    destructuring yields for an absent property.  Strings are byte strings
    holding UTF-8 text; a string with an unpaired surrogate, which a JSON
    escape can spell, has no value here.  An object is the list of its own
    properties in enumeration order, which is the order JSON.stringify
    writes them in. *)
Inductive JsValue : Type :=
| JUndefined
| JNull
| JBool (b : bool)
| JNum (n : JsNumber)
| JStr (s : string)
| JArr (elems : list JsValue)
| JObj (props : list (string * JsValue)).

(** [ToBoolean]: the test behind [!x] and [if (x)]. *)
Definition truthy (v : JsValue) : bool :=
  match v with
  | JUndefined | JNull => false
  | JBool b => b
  | JNum Zero => false
  | JNum _ => true
  | JStr s => negb (String.eqb s "")
  | JArr _ | JObj _ => true
  end.

(** [x === undefined]. *)
Definition is_undefined (v : JsValue) : bool :=
  match v with
  | JUndefined => true
  | _ => false
  end.

(** Property read [o.k] on a parsed object: the value of the own property,
    [undefined] when there is none. *)
Fixpoint get_prop (props : list (string * JsValue)) (k : string) : JsValue :=
  match props with
  | [] => JUndefined
  | (k', v) :: rest => if String.eqb k' k then v else get_prop rest k
  end.

(** [o] has an own property named [k]. *)
Definition has_own (props : list (string * JsValue)) (k : string) : bool :=
  existsb (fun kv => String.eqb kv.1 k) props.

Fixpoint zeros (count : nat) : string :=
  match count with
  | O => ""
  | S count' => String "0" (zeros count')
  end.

Fixpoint string_take (count : nat) (s : string) : string :=
  match count, s with
  | S count', String c s' => String c (string_take count' s')
  | _, _ => ""
  end.

Fixpoint string_drop (count : nat) (s : string) : string :=
  match count, s with
  | S count', String _ s' => string_drop count' s'
  | _, _ => s
  end.

(** [Number::toString] in radix 10, on the digits [s] (there are [k] of
    them) and the exponent [n]: plain digits up to 21 places, a decimal
    point inside or after a leading [0.] down to six places, the exponent
    form otherwise. *)
Definition number_to_string (x : JsNumber) : string :=
  match x with
  | Zero => "0"
  | Infinite negative => (if negative then "-" else "") +:+ "Infinity"
  | Finite negative s n =>
      let digits := pretty (Npos s) in
      let k := Z.of_nat (String.length digits) in
      (if negative then "-" else "") +:+
      (if (k <=? n)%Z && (n <=? 21)%Z then
         digits +:+ zeros (Z.to_nat (n - k))
       else if (0 <? n)%Z && (n <=? 21)%Z then
         string_take (Z.to_nat n) digits +:+ "." +:+ string_drop (Z.to_nat n) digits
       else if (-6 <? n)%Z && (n <=? 0)%Z then
         "0." +:+ zeros (Z.to_nat (- n)) +:+ digits
       else
         let e := (n - 1)%Z in
         let exponent :=
           "e" +:+ (if (e <? 0)%Z then "-" else "+") +:+ pretty (Z.abs_N e) in
         if (k =? 1)%Z then digits +:+ exponent
         else string_take 1 digits +:+ "." +:+ string_drop 1 digits +:+ exponent)
  end.

Fixpoint strip_zeros (fuel : nat) (m : N) : N :=
  match fuel with
  | O => m
  | S fuel' => if (m mod 10 =? 0)%N then strip_zeros fuel' (m / 10)%N else m
  end.

(** The number an integer [z] is, for the integers a double holds exactly
    and writes with their own digits: those of magnitude up to 2^53. *)
Definition safe_integer (z : Z) : JsNumber :=
  match Z.abs_N z with
  | N0 => Zero
  | Npos m =>
      let places := String.length (pretty (Npos m)) in
      match strip_zeros places (Npos m) with
      | N0 => Zero
      | Npos s => Finite (z <? 0)%Z s (Z.of_nat places)
      end
  end.

(** The message of the TypeError thrown when an object has no usable
    [toString] or [valueOf]. *)
Definition cannot_convert : string := "Cannot convert object to primitive value".

(** [Array.prototype.join] with the given separator over pieces already
    converted. *)
Fixpoint join (sep : string) (pieces : list string) : string :=
  match pieces with
  | [] => ""
  | [p] => p
  | p :: rest => p +:+ sep +:+ join sep rest
  end.

(** [ToString], the conversion a template literal applies to each
    substitution; [None] stands for the TypeError it throws.  An array joins
    its elements with a comma, [null] and [undefined] elements giving the
    empty piece.  An object of a parsed body is converted by
    [Object.prototype.toString] unless it has an own property [toString]:
    that property holds a JSON value, which cannot be called, and neither it
    nor [valueOf] then yields a primitive. *)
Fixpoint ToString (v : JsValue) : option string :=
  match v with
  | JUndefined => Some "undefined"
  | JNull => Some "null"
  | JBool true => Some "true"
  | JBool false => Some "false"
  | JNum n => Some (number_to_string n)
  | JStr s => Some s
  | JArr elems =>
      option_map (join ",")
        ((fix pieces (l : list JsValue) : option (list string) :=
            match l with
            | [] => Some []
            | e :: l' =>
                match match e with
                      | JUndefined | JNull => Some ""
                      | _ => ToString e
                      end with
                | Some piece =>
                    match pieces l' with
                    | Some rest => Some (piece :: rest)
                    | None => None
                    end
                | None => None
                end
            end) elems)
  | JObj props =>
      if has_own props "toString" then None else Some "[object Object]"
  end.

(** ** JSON.stringify *)

Definition dquote : ascii := ascii_of_nat 34.
Definition backslash : ascii := ascii_of_nat 92.

Definition hex_digit (n : N) : ascii :=
  if (n <? 10)%N then ascii_of_N (48 + n) else ascii_of_N (87 + n).

(** One code unit of [QuoteJSONString]. *)
Definition quote_char (c : ascii) : string :=
  let n := N_of_ascii c in
  if (n =? 34)%N then String backslash (String dquote "")
  else if (n =? 92)%N then String backslash (String backslash "")
  else if (n =? 8)%N then String backslash "b"
  else if (n =? 12)%N then String backslash "f"
  else if (n =? 10)%N then String backslash "n"
  else if (n =? 13)%N then String backslash "r"
  else if (n =? 9)%N then String backslash "t"
  else if (n <? 32)%N then
    String backslash
      (String "u" (String "0" (String "0"
         (String (hex_digit (n / 16)) (String (hex_digit (n mod 16)) "")))))
  else String c "".

Fixpoint quote_body (s : string) : string :=
  match s with
  | EmptyString => ""
  | String c s' => quote_char c +:+ quote_body s'
  end.

Definition quote (s : string) : string :=
  String dquote (quote_body s +:+ String dquote "").

(** [SerializeJSONProperty]: [None] stands for the [undefined] it returns on
    [undefined]; an array writes [null] in that place and an object leaves
    the property out.  A number that is not finite is written [null].  A
    property [toJSON] of a parsed body holds a JSON value, which cannot be
    called, and is written like any other. *)
Fixpoint stringify (v : JsValue) : option string :=
  match v with
  | JUndefined => None
  | JNull => Some "null"
  | JBool true => Some "true"
  | JBool false => Some "false"
  | JNum (Infinite _) => Some "null"
  | JNum n => Some (number_to_string n)
  | JStr s => Some (quote s)
  | JArr elems =>
      Some ("[" +:+
            join ","
              ((fix items (l : list JsValue) : list string :=
                  match l with
                  | [] => []
                  | e :: l' => default "null" (stringify e) :: items l'
                  end) elems)
            +:+ "]")
  | JObj props =>
      Some ("{" +:+
            join ","
              ((fix members (l : list (string * JsValue)) : list string :=
                  match l with
                  | [] => []
                  | (k, e) :: l' =>
                      match stringify e with
                      | Some s => (quote k +:+ ":" +:+ s) :: members l'
                      | None => members l'
                      end
                  end) props)
            +:+ "}")
  end.

(** [JSON.stringify(v)] as a value: a string, or [undefined]. *)
Definition JSON_stringify (v : JsValue) : JsValue :=
  match stringify v with
  | Some s => JStr s
  | None => JUndefined
  end.


(** ** Effects: the provider, the console and thrown errors *)

(** What a call to the text-generation provider comes back with: the
    [content] of the reply, or a thrown error with its [message]; or nothing
    at all, when the promise of the call never settles (the handler sets no
    timeout). *)
Inductive GenResult : Type :=
| Content (text : string)
| Failure (message : string)
| Unsettled.

(** [new ChatGoogleGenerativeAI({ apiKey, modelName })]. *)
Record ChatGoogleGenerativeAI : Type := {
  model_apiKey : JsValue;
  modelName : string
}.

(** What a run leaves behind, in the order it happens. *)
Inductive Event : Type :=
| ConsoleLog (line : string)
| ConsoleError (label message : string)
| ModelInvoke (model : ChatGoogleGenerativeAI) (prompt : string) (result : GenResult).

(** A computation ends by returning a value or by throwing an [Error] with
    the given message, or it stays suspended at an [await] for ever. *)
Inductive Outcome (A : Type) : Type :=
| Return (a : A)
| Throw (message : string)
| Pending.
Arguments Return {A} a.
Arguments Throw {A} message.
Arguments Pending {A}.

(** [res.status(code).json(obj)]. *)
Record Response : Type := {
  status : Z;
  json : JsValue
}.

(** [START] and [END] of the graph library. *)
Definition START : string := "__start__".
Definition END : string := "__end__".

(** The default [recursionLimit] of a graph run. *)
Definition recursionLimit : nat := 25.

Section Server.

(** The text-generation provider is outside the program: a state of its own
    and a function from the model configuration and the prompt of the single
    human message to a reply, a failure, or no answer. *)
Variable Provider : Type.
Variable generate :
  ChatGoogleGenerativeAI -> Provider -> string -> GenResult * Provider.

(** A computation threads the provider's state, emits events and may
    throw or stay pending. *)
Definition M (A : Type) : Type := Provider -> Outcome A * Provider * list Event.

Definition ret {A} (a : A) : M A := fun p => (Return a, p, []).

Definition throw {A} (message : string) : M A := fun p => (Throw message, p, []).

Definition bind {A B} (m : M A) (f : A -> M B) : M B :=
  fun p =>
    match m p with
    | (Return a, p1, t1) =>
        match f a p1 with
        | (o, p2, t2) => (o, p2, (t1 ++ t2)%list)
        end
    | (Throw e, p1, t1) => (Throw e, p1, t1)
    | (Pending, p1, t1) => (Pending, p1, t1)
    end.

(** [try { m } catch (error) { h error.message }]. *)
Definition try_catch {A} (m : M A) (h : string -> M A) : M A :=
  fun p =>
    match m p with
    | (Return a, p1, t1) => (Return a, p1, t1)
    | (Throw e, p1, t1) =>
        match h e p1 with
        | (o, p2, t2) => (o, p2, (t1 ++ t2)%list)
        end
    | (Pending, p1, t1) => (Pending, p1, t1)
    end.

Notation "'let!' x ':=' m 'in' k" := (bind m (fun x => k))
  (at level 10, x name, m at level 100, k at level 200).
Notation "m ;;; k" := (bind m (fun _ => k))
  (at level 100, k at level 200, right associativity).

Definition console_log (line : string) : M unit :=
  fun p => (Return tt, p, [ConsoleLog line]).

Definition console_error (label message : string) : M unit :=
  fun p => (Return tt, p, [ConsoleError label message]).

(** [(await model.invoke([new HumanMessage(prompt)])).content]: the reply's
    content, or the provider's error thrown; the [await] does not resume when
    the call never settles. *)
Definition model_invoke (model : ChatGoogleGenerativeAI) (prompt : string) : M string :=
  fun p =>
    match generate model p prompt with
    | (Content text, p') => (Return text, p', [ModelInvoke model prompt (Content text)])
    | (Failure e, p') => (Throw e, p', [ModelInvoke model prompt (Failure e)])
    | (Unsettled, p') => (Pending, p', [ModelInvoke model prompt Unsettled])
    end.

(** A template literal whose text came out as [text], or the TypeError one
    of its substitutions threw. *)
Definition template (text : option string) : M string :=
  match text with
  | Some prompt => ret prompt
  | None => throw cannot_convert
  end.

(** ** The state graph *)

(** [StateGraph] comes from the graph library the program depends on.  What
    follows is the part of its behaviour the handler relies on: channels
    that start at their default and pass every write through their [value]
    function, nodes that read the state and return an update, and a run that
    follows the edges from [START], step by step, until only [END] is left.
    An error thrown by a node ends the run and reaches the caller of
    [invoke]. *)

(** A channel of the graph state: [{ value: (x, y) => ..., default: () => ... }]. *)
Record Channel : Type := {
  value : JsValue -> JsValue -> JsValue;
  default_value : unit -> JsValue
}.

(** [state.k] on the graph state. *)
Definition field (state : gmap string JsValue) (k : string) : JsValue :=
  default JUndefined (state !! k).

(** A node takes the state and returns the properties it updates. *)
Definition Node : Type := gmap string JsValue -> M (list (string * JsValue)).

Record StateGraph : Type := {
  channels : list (string * Channel);
  nodes : gmap string Node;
  edges : list (string * string)
}.

Definition new_StateGraph (chs : list (string * Channel)) : StateGraph :=
  {| channels := chs; nodes := ∅; edges := [] |}.

Definition addNode (name : string) (fn : Node) (g : StateGraph) : StateGraph :=
  {| channels := channels g; nodes := <[name := fn]> (nodes g); edges := edges g |}.

Definition addEdge (a b : string) (g : StateGraph) : StateGraph :=
  {| channels := channels g; nodes := nodes g; edges := (edges g ++ [(a, b)])%list |}.

Definition setEntryPoint (name : string) (g : StateGraph) : StateGraph :=
  addEdge START name g.

Definition setFinishPoint (name : string) (g : StateGraph) : StateGraph :=
  addEdge name END g.

(** [workflow.compile()]: the checks it makes (every edge joins nodes that
    were added, an entry point is set) pass on the graph of the handler, and
    the compiled graph runs the nodes and edges it was given. *)
Definition compile (g : StateGraph) : StateGraph := g.

(** Every channel starts at its default. *)
Fixpoint initial_state (chs : list (string * Channel)) : gmap string JsValue :=
  match chs with
  | [] => ∅
  | (k, ch) :: rest => <[k := default_value ch tt]> (initial_state rest)
  end.

Fixpoint find_channel (chs : list (string * Channel)) (k : string) : option Channel :=
  match chs with
  | [] => None
  | (k', ch) :: rest => if String.eqb k' k then Some ch else find_channel rest k
  end.

(** Writing an update: each property goes through its channel's [value]
    function with the channel's current value; a property that names no
    channel is left out. *)
Fixpoint apply_update (chs : list (string * Channel))
    (state : gmap string JsValue) (update : list (string * JsValue))
    : gmap string JsValue :=
  match update with
  | [] => state
  | (k, y) :: rest =>
      match find_channel chs k with
      | Some ch => apply_update chs (<[k := value ch (field state k) y]> state) rest
      | None => apply_update chs state rest
      end
  end.

(** The nodes the edges lead to from the nodes that just ran: [END] is no
    node, and a node is scheduled once. *)
Definition successors (es : list (string * string)) (ran : list string) : list string :=
  remove_dups
    (omap (fun e : string * string =>
             if bool_decide (e.1 ∈ ran) && negb (String.eqb e.2 END)
             then Some e.2 else None) es).

(** One step runs every scheduled node on the state as it was when the step
    began, one after the other, and collects their updates. *)
Fixpoint run_nodes (g : StateGraph) (names : list string)
    (state : gmap string JsValue) : M (list (string * JsValue)) :=
  match names with
  | [] => ret []
  | name :: rest =>
      match nodes g !! name with
      | Some fn =>
          let! u := fn state in
          let! us := run_nodes g rest state in
          ret (u ++ us)%list
      | None => run_nodes g rest state
      end
  end.

(** The run: step after step until no node is scheduled, at most [limit]
    steps. *)
Fixpoint run_steps (limit : nat) (g : StateGraph) (scheduled : list string)
    (state : gmap string JsValue) : M (gmap string JsValue) :=
  match scheduled with
  | [] => ret state
  | _ =>
      match limit with
      | O => throw "Recursion limit of 25 reached without hitting a stop condition."
      | S limit' =>
          let! update := run_nodes g scheduled state in
          run_steps limit' g (successors (edges g) scheduled)
            (apply_update (channels g) state update)
      end
  end.

(** [appGraph.invoke(input)]: the input is written to the channels, the
    nodes after [START] are scheduled, and the final state is returned. *)
Definition invoke (g : StateGraph) (input : list (string * JsValue))
    : M (gmap string JsValue) :=
  run_steps recursionLimit g (successors (edges g) [START])
    (apply_update (channels g) (initial_state (channels g)) input).

(** ** The handler *)

Definition nl : string := String (ascii_of_nat 10) "".
Definition indent : string := "      ".

(** 1. The state of the graph: every channel keeps the last value written. *)
Definition graphState : list (string * Channel) :=
  [ ("studentName", {| value := fun x y => y; default_value := fun _ => JStr "" |});
    ("grade", {| value := fun x y => y; default_value := fun _ => JNum Zero |});
    ("score", {| value := fun x y => y; default_value := fun _ => JNum Zero |});
    ("totalItems", {| value := fun x y => y; default_value := fun _ => JNum Zero |});
    ("incorrectWords", {| value := fun x y => y; default_value := fun _ => JArr [] |});
    ("analysis", {| value := fun x y => y; default_value := fun _ => JStr "" |});
    ("report", {| value := fun x y => y; default_value := fun _ => JStr "" |}) ].

(** The text of the template literal of the analyst node, around its
    three substitutions once they are strings. *)
Definition analyst_text (studentName grade incorrectWords : string) : string :=
  "You are a spelling analyst. Your job is to analyze the spelling mistakes of a student and identify patterns. Do not write a report for the student, just provide a technical analysis."
  +:+ nl +:+ indent
  +:+ nl +:+ indent +:+ "Student: " +:+ studentName
  +:+ nl +:+ indent +:+ "Grade: " +:+ grade
  +:+ nl +:+ indent +:+ "Incorrect words (correct -> student's attempt): "
  +:+ incorrectWords
  +:+ nl +:+ indent
  +:+ nl +:+ indent
  +:+ "Based on these errors, identify the likely reasons for the mistakes (e.g., phonetic confusion, vowel swaps, silent letters, common typos). Provide a concise, bullet-pointed analysis.".

(** The template literal of the analyst node: each substitution is
    converted in turn, and the first that cannot be converted throws. *)
Definition analyst_prompt (state : gmap string JsValue) : option string :=
  studentName ← ToString (field state "studentName");
  grade ← ToString (field state "grade");
  incorrectWords ← ToString (JSON_stringify (field state "incorrectWords"));
  Some (analyst_text studentName grade incorrectWords).

(** The text of the template literal of the reporter node, around its five
    substitutions once they are strings. *)
Definition reporter_text (studentName grade score totalItems analysis : string)
    : string :=
  "You are a friendly and encouraging teacher. Write a personalized report for a student based on the analysis of their spelling mistakes. The report should be in HTML format."
  +:+ nl +:+ indent
  +:+ nl +:+ indent +:+ "Student: " +:+ studentName
  +:+ nl +:+ indent +:+ "Grade: " +:+ grade
  +:+ nl +:+ indent +:+ "Score: " +:+ score
  +:+ "/" +:+ totalItems
  +:+ nl +:+ indent +:+ "Analysis of mistakes: " +:+ analysis
  +:+ nl +:+ indent
  +:+ nl +:+ indent
  +:+ "Write a report that is positive and provides specific, actionable advice. Start with encouragement, then explain the patterns of mistakes in simple terms, and end with 2-3 clear tips for improvement. Format the output as clean HTML with paragraphs (<p>) and unordered lists (<ul><li>).".

(** The template literal of the reporter node. *)
Definition reporter_prompt (state : gmap string JsValue) : option string :=
  studentName ← ToString (field state "studentName");
  grade ← ToString (field state "grade");
  score ← ToString (field state "score");
  totalItems ← ToString (field state "totalItems");
  analysis ← ToString (field state "analysis");
  Some (reporter_text studentName grade score totalItems analysis).

(** 2. The nodes. *)
Definition analystNode (model : ChatGoogleGenerativeAI) : Node :=
  fun state =>
    console_log "Running analyst node..." ;;;
    let! prompt := template (analyst_prompt state) in
    let! content := model_invoke model prompt in
    console_log "Analyst node complete." ;;;
    ret [("analysis", JStr content)].

Definition reporterNode (model : ChatGoogleGenerativeAI) : Node :=
  fun state =>
    console_log "Running reporter node..." ;;;
    let! prompt := template (reporter_prompt state) in
    let! content := model_invoke model prompt in
    console_log "Reporter node complete." ;;;
    ret [("report", JStr content)].

(** 3. The workflow. *)
Definition workflow (model : ChatGoogleGenerativeAI) : StateGraph :=
  setFinishPoint "reporter"
    (setEntryPoint "analyst"
       (addEdge "analyst" "reporter"
          (addNode "reporter" (reporterNode model)
             (addNode "analyst" (analystNode model)
                (new_StateGraph graphState))))).

(** The input validation: the condition under which the handler answers
    400. *)
Definition missing_fields (studentName grade score totalItems incorrectWords : JsValue)
    : bool :=
  negb (truthy studentName) || negb (truthy grade) || is_undefined score
  || negb (truthy totalItems) || negb (truthy incorrectWords).

(** [process.env.GEMINI_API_KEY]: a string when the variable is set. *)
Definition env_value (v : option string) : JsValue :=
  match v with
  | Some s => JStr s
  | None => JUndefined
  end.

(** The body of the [try] block: the response it sends, or the error it
    throws. *)
Definition generate_report_try (apiKey : JsValue) (body : list (string * JsValue))
    : M Response :=
  if negb (truthy apiKey) then
    throw "GEMINI_API_KEY environment variable not set."
  else
    let studentName := get_prop body "studentName" in
    let grade := get_prop body "grade" in
    let score := get_prop body "score" in
    let totalItems := get_prop body "totalItems" in
    let incorrectWords := get_prop body "incorrectWords" in
    if missing_fields studentName grade score totalItems incorrectWords then
      ret {| status := 400;
             json := JObj [("error", JStr "Missing required fields in request body.")] |}
    else
      console_log "Initializing Google AI model..." ;;;
      let model := {| model_apiKey := apiKey; modelName := "gemini-2.0-flash" |} in
      console_log "Google AI model initialized." ;;;
      console_log "Compiling LangGraph workflow..." ;;;
      let appGraph := compile (workflow model) in
      console_log "LangGraph workflow compiled." ;;;
      console_log "Invoking graph..." ;;;
      let! finalState :=
        invoke appGraph
          [ ("studentName", studentName);
            ("grade", grade);
            ("score", score);
            ("totalItems", totalItems);
            ("incorrectWords", incorrectWords) ] in
      console_log "Graph invocation complete." ;;;
      ret {| status := 200; json := JObj [("report", field finalState "report")] |}.

(** The handler of POST /api/generate-report, given the credential read at
    start-up and [req.body], the object the JSON body parser produced.  The
    first log line is written before the [try]; whatever the [try] block
    throws is answered 500 with the error's message; while an [await] of the
    [try] block stays pending no response is sent. *)
Definition generate_report (apiKey : JsValue) (body : list (string * JsValue))
    : M Response :=
  console_log "Received request to /api/generate-report" ;;;
  try_catch (generate_report_try apiKey body)
    (fun message =>
       console_error "Error generating report:" message ;;;
       ret {| status := 500;
              json := JObj [("error", JStr "An internal error occurred while generating the report.");
                            ("details", JStr message)] |}).

(** Two requests served one after the other by the same process: the second
    starts from the provider state the first left. *)
Definition serve_twice (apiKey : JsValue) (body1 body2 : list (string * JsValue))
    (p : Provider) : (Outcome Response * list Event) * (Outcome Response * list Event) :=
  match generate_report apiKey body1 p with
  | (o1, p1, t1) =>
      match generate_report apiKey body2 p1 with
      | (o2, _, t2) => ((o1, t1), (o2, t2))
      end
  end.

End Server.

Arguments ret {Provider A} a.
Arguments throw {Provider A} message.
Arguments bind {Provider A B} m f.
Arguments try_catch {Provider A} m h.
Arguments console_log {Provider} line.
Arguments console_error {Provider} label message.
Arguments model_invoke {Provider} generate model prompt.
Arguments template {Provider} text.
Arguments channels {Provider} s.
Arguments nodes {Provider} s.
Arguments edges {Provider} s.
Arguments new_StateGraph {Provider} chs.
Arguments addNode {Provider} name fn g.
Arguments addEdge {Provider} a b g.
Arguments setEntryPoint {Provider} name g.
Arguments setFinishPoint {Provider} name g.
Arguments compile {Provider} g.
Arguments run_nodes {Provider} g names state.
Arguments run_steps {Provider} limit g scheduled state.
Arguments invoke {Provider} g input.
Arguments analystNode {Provider} generate model.
Arguments reporterNode {Provider} generate model.
Arguments workflow {Provider} generate model.
Arguments generate_report_try {Provider} generate apiKey body.
Arguments generate_report {Provider} generate apiKey body.
Arguments serve_twice {Provider} generate apiKey body1 body2 p.


(** ** Vocabulary of the properties *)

(** The value of a JSON integer literal of magnitude up to 2^53. *)
Definition JInt (z : Z) : JsValue := JNum (safe_integer z).

(** The text a template literal gets from [JSON.stringify(v)]. *)
Definition json_text (v : JsValue) : string :=
  match stringify v with
  | Some s => s
  | None => "undefined"
  end.

(** [ToString] does not throw on [v]. *)
Definition convertible (v : JsValue) : bool :=
  match ToString v with
  | Some _ => true
  | None => false
  end.

(** The four fields the prompts convert to text all convert. *)
Definition fields_convertible (body : list (string * JsValue)) : bool :=
  convertible (get_prop body "studentName") && convertible (get_prop body "grade")
  && convertible (get_prop body "score") && convertible (get_prop body "totalItems").

(** The five fields the handler destructures from the body. *)
Definition required_fields : list string :=
  ["studentName"; "grade"; "score"; "totalItems"; "incorrectWords"].

(** The request passes the input validation. *)
Definition request_valid (body : list (string * JsValue)) : bool :=
  negb (missing_fields (get_prop body "studentName") (get_prop body "grade")
          (get_prop body "score") (get_prop body "totalItems")
          (get_prop body "incorrectWords")).

(** The graph state once the input of the request is written to it. *)
Definition request_state (body : list (string * JsValue)) : gmap string JsValue :=
  apply_update graphState (initial_state graphState)
    [ ("studentName", get_prop body "studentName");
      ("grade", get_prop body "grade");
      ("score", get_prop body "score");
      ("totalItems", get_prop body "totalItems");
      ("incorrectWords", get_prop body "incorrectWords") ].

(** The graph state once the analyst node has written its analysis. *)
Definition analysed_state (body : list (string * JsValue)) (analysis : string)
    : gmap string JsValue :=
  apply_update graphState (request_state body) [("analysis", JStr analysis)].

(** The model object the handler builds. *)
Definition report_model (apiKey : JsValue) : ChatGoogleGenerativeAI :=
  {| model_apiKey := apiKey; modelName := "gemini-2.0-flash" |}.

(** The calls to the provider in a trace, in order: prompt and result. *)
Definition model_calls (t : list Event) : list (string * GenResult) :=
  omap (fun e => match e with
                 | ModelInvoke _ prompt r => Some (prompt, r)
                 | _ => None
                 end) t.

(** [sub] occurs in [s]. *)
Definition contains (s sub : string) : Prop :=
  exists pre post, s = pre +:+ sub +:+ post.

(** The three responses. *)
Definition bad_request : Response :=
  {| status := 400;
     json := JObj [("error", JStr "Missing required fields in request body.")] |}.

Definition internal_error (details : string) : Response :=
  {| status := 500;
     json := JObj [("error", JStr "An internal error occurred while generating the report.");
                   ("details", JStr details)] |}.

Definition report_response (report : JsValue) : Response :=
  {| status := 200; json := JObj [("report", report)] |}.

(** What the console shows before the graph starts on a valid request. *)
Definition prelude : list Event :=
  [ ConsoleLog "Received request to /api/generate-report";
    ConsoleLog "Initializing Google AI model...";
    ConsoleLog "Google AI model initialized.";
    ConsoleLog "Compiling LangGraph workflow...";
    ConsoleLog "LangGraph workflow compiled.";
    ConsoleLog "Invoking graph..." ].

(** The validation as the interface description words it: every field
    non-falsy, except that a score of [0] still counts as present. *)
Definition described_valid (body : list (string * JsValue)) : bool :=
  truthy (get_prop body "studentName") && truthy (get_prop body "grade")
  && (truthy (get_prop body "score")
      || match get_prop body "score" with JNum Zero => true | _ => false end)
  && truthy (get_prop body "totalItems") && truthy (get_prop body "incorrectWords").

(** ** Providers to run the handler against *)

(** Replies by position: the first call gets the analysis, later calls the
    report; the state counts the calls. *)
Definition scripted (analysis report : string)
    (m : ChatGoogleGenerativeAI) (calls : nat) (prompt : string) : GenResult * nat :=
  (match calls with
   | O => Content analysis
   | S _ => Content report
   end, S calls).

(** Replies with a text fixed by the prompt, and counts the calls. *)
Definition echo (m : ChatGoogleGenerativeAI) (calls : nat) (prompt : string)
    : GenResult * nat :=
  (Content ("<p>" +:+ prompt +:+ "</p>"), S calls).

(** Never answers a call. *)
Definition silent (m : ChatGoogleGenerativeAI) (calls : nat) (prompt : string)
    : GenResult * nat :=
  (Unsettled, S calls).

(** Fails every call. *)
Definition unavailable (m : ChatGoogleGenerativeAI) (calls : nat) (prompt : string)
    : GenResult * nat :=
  (Failure "503 Service Unavailable", S calls).

(** The request of the first scenario. *)
Definition alex_request : list (string * JsValue) :=
  [ ("studentName", JStr "Alex"); ("grade", JInt 3); ("score", JInt 7);
    ("totalItems", JInt 10);
    ("incorrectWords",
      JArr [JObj [("correct", JStr "friend"); ("attempt", JStr "freind")]]) ].

(** The same request without its score. *)
Definition alex_without_score : list (string * JsValue) :=
  [ ("studentName", JStr "Alex"); ("grade", JInt 3); ("totalItems", JInt 10);
    ("incorrectWords",
      JArr [JObj [("correct", JStr "friend"); ("attempt", JStr "freind")]]) ].

(** The same request with the given score. *)
Definition alex_with_score (score : JsValue) : list (string * JsValue) :=
  [ ("studentName", JStr "Alex"); ("grade", JInt 3); ("score", score);
    ("totalItems", JInt 10);
    ("incorrectWords",
      JArr [JObj [("correct", JStr "friend"); ("attempt", JStr "freind")]]) ].

(** A request with no incorrect word. *)
Definition flawless_request : list (string * JsValue) :=
  [ ("studentName", JStr "Alex"); ("grade", JStr "3B"); ("score", JInt 10);
    ("totalItems", JInt 10); ("incorrectWords", JArr []) ].

(** The parsed JSON text [{"toString": null}]. *)
Definition unprintable : JsValue := JObj [("toString", JNull)].

(** The first scenario's request with its student name replaced. *)
Definition alex_with_name (name : JsValue) : list (string * JsValue) :=
  [ ("studentName", name); ("grade", JInt 3); ("score", JInt 7);
    ("totalItems", JInt 10);
    ("incorrectWords",
      JArr [JObj [("correct", JStr "friend"); ("attempt", JStr "freind")]]) ].


Definition test_key : JsValue := env_value (Some "test-key").
Definition alex_analysis : string := "- vowel swap pattern".
Definition alex_report : string :=
  "<p>Great job, Alex!</p><ul><li>Practice 'friend'</li></ul>".

(** ** The rest of the configuration *)

(** [process.env.PORT || 8080]: the variable when it is set to a non-empty
    string, the number 8080 otherwise. *)
Definition PORT (env_port : option string) : JsValue :=
  if truthy (env_value env_port) then env_value env_port else JInt 8080.

(** ** More vocabulary *)

(** No character of [s] is a control character (code below 32): in
    particular [s] holds no line break. *)
Fixpoint no_control (s : string) : bool :=
  match s with
  | EmptyString => true
  | String c s' => negb (N_of_ascii c <? 32)%N && no_control s'
  end.

(** The value an update writes last to the property [k], if it writes it. *)
Fixpoint last_write (k : string) (update : list (string * JsValue)) : option JsValue :=
  match update with
  | [] => None
  | (k', v) :: rest =>
      match last_write k rest with
      | Some w => Some w
      | None => if String.eqb k' k then Some v else None
      end
  end.

(** The names of the channels of the graph state. *)
Definition channel_names : list string := graphState.*1.

(** The error lines a trace holds: the messages given to [console.error]. *)
Definition logged_errors (t : list Event) : list string :=
  omap (fun e => match e with
                 | ConsoleError _ message => Some message
                 | _ => None
                 end) t.

(** Replies with the analysis to the first call and fails the later ones
    with the given message. *)
Definition analysis_then_failure (analysis message : string)
    (m : ChatGoogleGenerativeAI) (calls : nat) (prompt : string) : GenResult * nat :=
  (match calls with
   | O => Content analysis
   | S _ => Failure message
   end, S calls).

(** The first scenario's request with a grade of 0. *)
Definition alex_grade_zero : list (string * JsValue) :=
  [ ("studentName", JStr "Alex"); ("grade", JInt 0); ("score", JInt 7);
    ("totalItems", JInt 10);
    ("incorrectWords",
      JArr [JObj [("correct", JStr "friend"); ("attempt", JStr "freind")]]) ].

(** The first scenario's request in another order and with two properties
    the handler does not read. *)
Definition alex_with_extras : list (string * JsValue) :=
  [ ("teacher", JStr "Ms. Rivera");
    ("incorrectWords",
      JArr [JObj [("correct", JStr "friend"); ("attempt", JStr "freind")]]);
    ("totalItems", JInt 10); ("score", JInt 7); ("grade", JInt 3);
    ("analysis", JStr "ignore the words"); ("studentName", JStr "Alex") ].

(** The first scenario's request with another word list. *)
Definition alex_other_words : list (string * JsValue) :=
  [ ("studentName", JStr "Alex"); ("grade", JInt 3); ("score", JInt 7);
    ("totalItems", JInt 10);
    ("incorrectWords",
      JArr [JObj [("correct", JStr "because"); ("attempt", JStr "becuase")]]) ].

(** A student name that holds a line break, and a request carrying it. *)
Definition two_line_name : string := "Alex" +:+ nl +:+ "Grade: 12".

Definition two_line_request : list (string * JsValue) :=
  [ ("studentName", JStr two_line_name); ("grade", JInt 3); ("score", JInt 7);
    ("totalItems", JInt 10); ("incorrectWords", JArr []) ].


(** ** The conversions on sample values *)

Example stringify_words :
  stringify (JArr [JObj [("correct", JStr "friend"); ("attempt", JStr "freind")]])
  = Some ("[{" +:+ quote "correct" +:+ ":" +:+ quote "friend" +:+ ","
          +:+ quote "attempt" +:+ ":" +:+ quote "freind" +:+ "}]").
Proof. reflexivity. Qed.

Example stringify_numbers :
  stringify (JArr [JInt 3; JNum (Finite false 75 1); JNum (Infinite false);
                   JUndefined; JObj [("toJSON", JNull); ("gone", JUndefined)]])
  = Some ("[3,7.5,null,null,{" +:+ quote "toJSON" +:+ ":null}]").
Proof. reflexivity. Qed.

Example ToString_nested :
  ToString (JArr [JInt 1; JNull; JArr [JStr "a"; JInt (-2)]; JObj []])
  = Some "1,,a,-2,[object Object]".
Proof. reflexivity. Qed.

Example ToString_throws :
  ToString unprintable = None
  /\ ToString (JArr [JInt 1; JArr [unprintable]]) = None
  /\ ToString (JObj [("valueOf", JNull)]) = Some "[object Object]".
Proof. repeat split. Qed.

Example number_to_string_samples :
  map number_to_string
    [ safe_integer 0; safe_integer 7; safe_integer 10; safe_integer (-4);
      safe_integer 8080; safe_integer 9007199254740992;
      Finite false 75 1; Finite true 5 0; Finite false 1 (-5);
      Finite false 1 (-6); Finite false 12 (-7); Finite false 1 21;
      Finite false 1 22; Finite false 1152921504606847 19;
      Finite false 17976931348623157 309; Infinite false; Infinite true ]
  = [ "0"; "7"; "10"; "-4"; "8080"; "9007199254740992";
      "7.5"; "-0.5"; "0.000001"; "1e-7"; "1.2e-8"; "100000000000000000000";
      "1e+21"; "1152921504606847000"; "1.7976931348623157e+308";
      "Infinity"; "-Infinity" ].
Proof. vm_compute. reflexivity. Qed.

(** ** Strings *)

Lemma append_assoc (a b c : string) : (a +:+ b) +:+ c = a +:+ (b +:+ c).
Proof.
  induction a as [|x a IH]; [reflexivity|].
  change (String x ((a +:+ b) +:+ c) = String x (a +:+ (b +:+ c))).
  now rewrite IH.
Qed.

Lemma contains_append_l (pre s sub : string) :
  contains s sub -> contains (pre +:+ s) sub.
Proof.
  intros (u & v & ->). exists (pre +:+ u), v. now rewrite append_assoc.
Qed.

Lemma contains_prefix (s rest : string) : contains (s +:+ rest) s.
Proof. now exists "", rest. Qed.

(** A property that is not in the body reads as [undefined]. *)
Lemma get_prop_absent (body : list (string * JsValue)) (k : string) :
  k ∉ body.*1 -> get_prop body k = JUndefined.
Proof.
  induction body as [|[k' v] body IH]; simpl; intros Hk; [reflexivity|].
  apply not_elem_of_cons in Hk as [Hne Hk].
  destruct (String.eqb_spec k' k) as [->|_]; [contradiction | auto].
Qed.

(** ** Evaluation of the handler *)

Section Evaluation.

Variable Provider : Type.
Variable generate :
  ChatGoogleGenerativeAI -> Provider -> string -> GenResult * Provider.

Lemma successors_START model :
  successors (edges (workflow generate model)) [START] = ["analyst"].
Proof. vm_compute. reflexivity. Qed.

Lemma successors_analyst model :
  successors (edges (workflow generate model)) ["analyst"] = ["reporter"].
Proof. vm_compute. reflexivity. Qed.

Lemma successors_reporter model :
  successors (edges (workflow generate model)) ["reporter"] = [].
Proof. vm_compute. reflexivity. Qed.

Lemma nodes_analyst model :
  nodes (workflow generate model) !! "analyst" = Some (analystNode generate model).
Proof. reflexivity. Qed.

Lemma nodes_reporter model :
  nodes (workflow generate model) !! "reporter" = Some (reporterNode generate model).
Proof. reflexivity. Qed.

(** The analyst node: the prompt, one call, and the analysis as its
    update. *)
Lemma analystNode_eval model state p :
  analystNode generate model state p =
  match analyst_prompt state with
  | None => (Throw cannot_convert, p, [ConsoleLog "Running analyst node..."])
  | Some q =>
      match generate model p q with
      | (Content a, p1) =>
          (Return [("analysis", JStr a)], p1,
           [ ConsoleLog "Running analyst node...";
             ModelInvoke model q (Content a);
             ConsoleLog "Analyst node complete." ])
      | (Failure e, p1) =>
          (Throw e, p1,
           [ ConsoleLog "Running analyst node...";
             ModelInvoke model q (Failure e) ])
      | (Unsettled, p1) =>
          (Pending, p1,
           [ ConsoleLog "Running analyst node...";
             ModelInvoke model q Unsettled ])
      end
  end.
Proof.
  unfold analystNode, bind, ret, console_log, template, model_invoke.
  destruct (analyst_prompt state) as [q|]; [|reflexivity].
  unfold ret. destruct (generate model p q) as [[a|e|] p1]; reflexivity.
Qed.

Lemma reporterNode_eval model state p :
  reporterNode generate model state p =
  match reporter_prompt state with
  | None => (Throw cannot_convert, p, [ConsoleLog "Running reporter node..."])
  | Some q =>
      match generate model p q with
      | (Content r, p1) =>
          (Return [("report", JStr r)], p1,
           [ ConsoleLog "Running reporter node...";
             ModelInvoke model q (Content r);
             ConsoleLog "Reporter node complete." ])
      | (Failure e, p1) =>
          (Throw e, p1,
           [ ConsoleLog "Running reporter node...";
             ModelInvoke model q (Failure e) ])
      | (Unsettled, p1) =>
          (Pending, p1,
           [ ConsoleLog "Running reporter node...";
             ModelInvoke model q Unsettled ])
      end
  end.
Proof.
  unfold reporterNode, bind, ret, console_log, template, model_invoke.
  destruct (reporter_prompt state) as [q|]; [|reflexivity].
  unfold ret. destruct (generate model p q) as [[r|e|] p1]; reflexivity.
Qed.

(** The graph runs the analyst node, writes its update, runs the reporter
    node on the updated state, writes its update and stops; a node that
    throws or stays pending ends the run. *)
Lemma invoke_workflow model input p :
  invoke (workflow generate model) input p =
  let st0 := apply_update graphState (initial_state graphState) input in
  match analystNode generate model st0 p with
  | (Return u1, p1, t1) =>
      let st1 := apply_update graphState st0 u1 in
      match reporterNode generate model st1 p1 with
      | (Return u2, p2, t2) =>
          (Return (apply_update graphState st1 u2), p2, (t1 ++ t2)%list)
      | (Throw e, p2, t2) => (Throw e, p2, (t1 ++ t2)%list)
      | (Pending, p2, t2) => (Pending, p2, (t1 ++ t2)%list)
      end
  | (Throw e, p1, t1) => (Throw e, p1, t1)
  | (Pending, p1, t1) => (Pending, p1, t1)
  end.
Proof.
  unfold invoke. rewrite successors_START.
  change recursionLimit with 25%nat.
  cbn [run_steps run_nodes]. rewrite successors_analyst, nodes_analyst.
  cbn [run_steps run_nodes]. rewrite successors_reporter, nodes_reporter.
  cbn [run_steps]. unfold bind, ret.
  change (channels (workflow generate model)) with graphState.
  cbn zeta.
  destruct (analystNode generate model _ p) as [[[u1|e|] p1] t1]; cbn [app].
  - rewrite !app_nil_r.
    destruct (reporterNode generate model _ p1) as [[[u2|e|] p2] t2]; cbn [app].
    + rewrite !app_nil_r. reflexivity.
    + reflexivity.
    + reflexivity.
  - reflexivity.
  - reflexivity.
Qed.

(** The channels keep what the request and the nodes wrote. *)
Lemma apply_update_report state v :
  field (apply_update graphState state [("report", v)]) "report" = v.
Proof.
  change (apply_update graphState state [("report", v)])
    with (<["report" := v]> state).
  unfold field. rewrite lookup_insert_eq. reflexivity.
Qed.

Lemma request_state_fields body :
  field (request_state body) "studentName" = get_prop body "studentName"
  /\ field (request_state body) "grade" = get_prop body "grade"
  /\ field (request_state body) "score" = get_prop body "score"
  /\ field (request_state body) "totalItems" = get_prop body "totalItems"
  /\ field (request_state body) "incorrectWords" = get_prop body "incorrectWords"
  /\ field (request_state body) "analysis" = JStr ""
  /\ field (request_state body) "report" = JStr "".
Proof. repeat split; reflexivity. Qed.

Lemma analysed_state_fields body a :
  field (analysed_state body a) "studentName" = get_prop body "studentName"
  /\ field (analysed_state body a) "grade" = get_prop body "grade"
  /\ field (analysed_state body a) "score" = get_prop body "score"
  /\ field (analysed_state body a) "totalItems" = get_prop body "totalItems"
  /\ field (analysed_state body a) "incorrectWords" = get_prop body "incorrectWords"
  /\ field (analysed_state body a) "analysis" = JStr a
  /\ field (analysed_state body a) "report" = JStr "".
Proof. repeat split; reflexivity. Qed.

(** Without the credential the handler throws at once and answers 500. *)
Lemma generate_report_no_key apiKey body p :
  truthy apiKey = false ->
  generate_report generate apiKey body p =
  (Return (internal_error "GEMINI_API_KEY environment variable not set."), p,
   [ ConsoleLog "Received request to /api/generate-report";
     ConsoleError "Error generating report:"
       "GEMINI_API_KEY environment variable not set." ]).
Proof.
  intros Hkey.
  unfold generate_report, generate_report_try, try_catch, bind, console_log.
  rewrite Hkey. reflexivity.
Qed.

(** With the credential, a request that fails the validation is answered
    400 and nothing else happens. *)
Lemma generate_report_invalid apiKey body p :
  truthy apiKey = true ->
  request_valid body = false ->
  generate_report generate apiKey body p =
  (Return bad_request, p, [ConsoleLog "Received request to /api/generate-report"]).
Proof.
  intros Hkey Hbad. apply negb_false_iff in Hbad.
  unfold generate_report, generate_report_try, try_catch, bind, console_log.
  rewrite Hkey. cbn [negb]. cbn zeta. rewrite Hbad. reflexivity.
Qed.

(** With the credential, a request that passes the validation goes through
    the graph: the analyst prompt and call, then the reporter prompt, built
    on the state that holds the analysis, and call.  The first prompt that
    cannot be built and the first failed call are answered 500; a call that
    never settles leaves the request without an answer. *)
Lemma generate_report_valid apiKey body p :
  truthy apiKey = true ->
  request_valid body = true ->
  generate_report generate apiKey body p =
  let model := report_model apiKey in
  match analyst_prompt (request_state body) with
  | None =>
      (Return (internal_error cannot_convert), p,
       (prelude ++
        [ ConsoleLog "Running analyst node...";
          ConsoleError "Error generating report:" cannot_convert ])%list)
  | Some q1 =>
  match generate model p q1 with
  | (Failure e, p1) =>
      (Return (internal_error e), p1,
       (prelude ++
        [ ConsoleLog "Running analyst node...";
          ModelInvoke model q1 (Failure e);
          ConsoleError "Error generating report:" e ])%list)
  | (Unsettled, p1) =>
      (Pending, p1,
       (prelude ++
        [ ConsoleLog "Running analyst node...";
          ModelInvoke model q1 Unsettled ])%list)
  | (Content a, p1) =>
  match reporter_prompt (analysed_state body a) with
  | None =>
      (Return (internal_error cannot_convert), p1,
       (prelude ++
        [ ConsoleLog "Running analyst node...";
          ModelInvoke model q1 (Content a);
          ConsoleLog "Analyst node complete.";
          ConsoleLog "Running reporter node...";
          ConsoleError "Error generating report:" cannot_convert ])%list)
  | Some q2 =>
  match generate model p1 q2 with
  | (Failure e, p2) =>
      (Return (internal_error e), p2,
       (prelude ++
        [ ConsoleLog "Running analyst node...";
          ModelInvoke model q1 (Content a);
          ConsoleLog "Analyst node complete.";
          ConsoleLog "Running reporter node...";
          ModelInvoke model q2 (Failure e);
          ConsoleError "Error generating report:" e ])%list)
  | (Unsettled, p2) =>
      (Pending, p2,
       (prelude ++
        [ ConsoleLog "Running analyst node...";
          ModelInvoke model q1 (Content a);
          ConsoleLog "Analyst node complete.";
          ConsoleLog "Running reporter node...";
          ModelInvoke model q2 Unsettled ])%list)
  | (Content r, p2) =>
      (Return (report_response (JStr r)), p2,
       (prelude ++
        [ ConsoleLog "Running analyst node...";
          ModelInvoke model q1 (Content a);
          ConsoleLog "Analyst node complete.";
          ConsoleLog "Running reporter node...";
          ModelInvoke model q2 (Content r);
          ConsoleLog "Reporter node complete.";
          ConsoleLog "Graph invocation complete." ])%list)
  end end end end.
Proof.
  intros Hkey Hok. apply negb_true_iff in Hok.
  unfold generate_report, generate_report_try, try_catch.
  rewrite Hkey. cbn [negb]. cbn zeta. rewrite Hok.
  unfold compile, bind at 1 2 3 4 5 6 7.
  unfold console_log at 1 2 3 4 5 6.
  rewrite invoke_workflow. cbn zeta.
  fold (request_state body). fold (report_model apiKey).
  rewrite analystNode_eval.
  destruct (analyst_prompt (request_state body)) as [q1|]; [|reflexivity].
  destruct (generate (report_model apiKey) p q1) as [[a|e|] p1];
    [|reflexivity|reflexivity].
  rewrite reporterNode_eval. fold (analysed_state body a).
  destruct (reporter_prompt (analysed_state body a)) as [q2|]; [|reflexivity].
  destruct (generate (report_model apiKey) p1 q2) as [[r|e|] p2];
    [|reflexivity|reflexivity].
  unfold bind, ret, console_log. rewrite apply_update_report. reflexivity.
Qed.

End Evaluation.

(** ** What the prompts hold *)

Lemma contains_here (x y rest : string) : contains (x +:+ y +:+ rest) (x +:+ y).
Proof. exists "", rest. simpl. now rewrite append_assoc. Qed.

Lemma contains_here3 (x y z rest : string) :
  contains (x +:+ y +:+ z +:+ rest) (x +:+ y +:+ z).
Proof.
  exists "", rest.
  change (x +:+ y +:+ z +:+ rest = (x +:+ y +:+ z) +:+ rest).
  now rewrite !append_assoc.
Qed.

Lemma contains_right (s x y : string) : contains s (x +:+ y) -> contains s y.
Proof.
  intros (u & v & ->). exists (u +:+ x), v. now rewrite !append_assoc.
Qed.

Ltac find_piece :=
  repeat first
    [ apply contains_here3 | apply contains_here | apply contains_append_l ].

(** JSON.stringify gives a template literal a string or [undefined], and
    both convert. *)
Lemma ToString_JSON_stringify (v : JsValue) :
  ToString (JSON_stringify v) = Some (json_text v).
Proof. unfold JSON_stringify, json_text. destruct (stringify v); reflexivity. Qed.

(** The analyst prompt is built exactly when studentName and grade convert,
    and is then the template around their texts and the JSON text of the
    word list. *)
Lemma analyst_prompt_Some (state : gmap string JsValue) (q : string) :
  analyst_prompt state = Some q <->
  exists name grade,
    ToString (field state "studentName") = Some name
    /\ ToString (field state "grade") = Some grade
    /\ q = analyst_text name grade (json_text (field state "incorrectWords")).
Proof.
  unfold analyst_prompt. rewrite ToString_JSON_stringify.
  destruct (ToString (field state "studentName")) as [name|];
    [|split; [discriminate | intros (? & ? & [=] & _)]].
  destruct (ToString (field state "grade")) as [grade|];
    [|split; [discriminate | intros (? & ? & _ & [=] & _)]].
  simpl. split.
  - intros [= <-]. exists name, grade. repeat split.
  - intros (? & ? & [= <-] & [= <-] & ->). reflexivity.
Qed.

Lemma analyst_prompt_None (state : gmap string JsValue) :
  analyst_prompt state = None <->
  convertible (field state "studentName") = false
  \/ convertible (field state "grade") = false.
Proof.
  unfold analyst_prompt, convertible. rewrite ToString_JSON_stringify.
  destruct (ToString (field state "studentName"));
    [|split; [auto | reflexivity]].
  destruct (ToString (field state "grade")); simpl.
  - split; [discriminate | intros [[=]|[=]]].
  - split; [auto | reflexivity].
Qed.

(** The reporter prompt is built exactly when studentName, grade, score,
    totalItems and the analysis convert. *)
Lemma reporter_prompt_Some (state : gmap string JsValue) (q : string) :
  reporter_prompt state = Some q <->
  exists name grade score total analysis,
    ToString (field state "studentName") = Some name
    /\ ToString (field state "grade") = Some grade
    /\ ToString (field state "score") = Some score
    /\ ToString (field state "totalItems") = Some total
    /\ ToString (field state "analysis") = Some analysis
    /\ q = reporter_text name grade score total analysis.
Proof.
  unfold reporter_prompt.
  destruct (ToString (field state "studentName")) as [name|];
    [|split; [discriminate | intros (? & ? & ? & ? & ? & [=] & _)]].
  destruct (ToString (field state "grade")) as [grade|];
    [|split; [discriminate | intros (? & ? & ? & ? & ? & _ & [=] & _)]].
  destruct (ToString (field state "score")) as [score|];
    [|split; [discriminate | intros (? & ? & ? & ? & ? & _ & _ & [=] & _)]].
  destruct (ToString (field state "totalItems")) as [total|];
    [|split; [discriminate | intros (? & ? & ? & ? & ? & _ & _ & _ & [=] & _)]].
  destruct (ToString (field state "analysis")) as [analysis|];
    [|split; [discriminate | intros (? & ? & ? & ? & ? & _ & _ & _ & _ & [=] & _)]].
  simpl. split.
  - intros [= <-]. exists name, grade, score, total, analysis. repeat split.
  - intros (? & ? & ? & ? & ? & [= <-] & [= <-] & [= <-] & [= <-] & [= <-] & ->).
    reflexivity.
Qed.

Lemma reporter_prompt_None (state : gmap string JsValue) (a : string) :
  field state "analysis" = JStr a ->
  reporter_prompt state = None <->
  convertible (field state "studentName") = false
  \/ convertible (field state "grade") = false
  \/ convertible (field state "score") = false
  \/ convertible (field state "totalItems") = false.
Proof.
  intros Ha. unfold reporter_prompt, convertible. rewrite Ha.
  destruct (ToString (field state "studentName")); [|split; [auto | reflexivity]].
  destruct (ToString (field state "grade")); [|split; [auto | reflexivity]].
  destruct (ToString (field state "score")); [|split; [auto | reflexivity]].
  destruct (ToString (field state "totalItems")); simpl.
  - split; [discriminate | intros [[=]|[[=]|[[=]|[=]]]]].
  - split; [auto | reflexivity].
Qed.

(** The reporter prompt of a state holding the analysis [a] holds [a] under
    its label. *)
Lemma reporter_prompt_analysis (state : gmap string JsValue) (a q : string) :
  field state "analysis" = JStr a ->
  reporter_prompt state = Some q ->
  contains q ("Analysis of mistakes: " +:+ a).
Proof.
  intros Ha Hq. apply reporter_prompt_Some in Hq
    as (name & grade & score & total & analysis & _ & _ & _ & _ & Han & ->).
  rewrite Ha in Han. injection Han as <-.
  unfold reporter_text. find_piece.
Qed.

(** The reporter prompt holds the text of the score between its label and
    the slash. *)
Lemma reporter_prompt_score (state : gmap string JsValue) (q : string) :
  reporter_prompt state = Some q ->
  exists score,
    ToString (field state "score") = Some score
    /\ contains q ("Score: " +:+ score +:+ "/").
Proof.
  intros Hq. apply reporter_prompt_Some in Hq
    as (name & grade & score & total & analysis & _ & _ & Hs & _ & _ & ->).
  exists score. split; [exact Hs|]. unfold reporter_text. find_piece.
Qed.

(** The analyst prompt holds the JSON text of the word list under its
    label. *)
Lemma analyst_prompt_words (state : gmap string JsValue) (q : string) :
  analyst_prompt state = Some q ->
  contains q
    ("Incorrect words (correct -> student's attempt): "
     +:+ json_text (field state "incorrectWords")).
Proof.
  intros Hq. apply analyst_prompt_Some in Hq as (name & grade & _ & _ & ->).
  unfold analyst_text. find_piece.
Qed.

(** ** The validation *)

Lemma request_valid_iff (body : list (string * JsValue)) :
  request_valid body = true <->
  truthy (get_prop body "studentName") = true
  /\ truthy (get_prop body "grade") = true
  /\ get_prop body "score" <> JUndefined
  /\ truthy (get_prop body "totalItems") = true
  /\ truthy (get_prop body "incorrectWords") = true.
Proof.
  unfold request_valid, missing_fields.
  rewrite negb_true_iff, !orb_false_iff, !negb_false_iff.
  assert (Hu : forall v, is_undefined v = false <-> v <> JUndefined)
    by (intros v; destruct v; simpl; split; congruence).
  rewrite Hu. tauto.
Qed.

(** An absent required field fails the validation. *)
Lemma absent_field_invalid (body : list (string * JsValue)) (k : string) :
  k ∈ required_fields -> k ∉ body.*1 -> request_valid body = false.
Proof.
  intros Hk Habs. apply get_prop_absent in Habs.
  apply not_true_iff_false. rewrite request_valid_iff.
  intros (Hn & Hg & Hs & Ht & Hw).
  unfold required_fields in Hk.
  repeat (apply elem_of_cons in Hk as [->|Hk]);
    [ rewrite Habs in Hn | rewrite Habs in Hg | | rewrite Habs in Ht
    | rewrite Habs in Hw | ]; try discriminate.
  - contradiction.
  - apply elem_of_nil in Hk. contradiction.
Qed.

(** The validation as described is sufficient for the validation as
    written. *)
Lemma described_valid_sound (body : list (string * JsValue)) :
  described_valid body = true -> request_valid body = true.
Proof.
  unfold described_valid. rewrite !andb_true_iff, orb_true_iff.
  intros ((((Hn & Hg) & Hs) & Ht) & Hw).
  apply request_valid_iff. repeat split; auto.
  intros Hu. rewrite Hu in Hs. destruct Hs; discriminate.
Qed.


Section Claims.

Variable Provider : Type.
Variable generate :
  ChatGoogleGenerativeAI -> Provider -> string -> GenResult * Provider.

(** The run of the handler, case by case: the credential, the validation,
    the analyst prompt and call, the reporter prompt and call. *)
Ltac handler_cases apiKey body p :=
  destruct (truthy apiKey) eqn:Hkey;
    [ destruct (request_valid body) eqn:Hok;
      [ rewrite !generate_report_valid by assumption; cbn zeta;
        destruct (analyst_prompt (request_state body)) as [q1|] eqn:Hq1;
        [ destruct (generate (report_model apiKey) p q1) as [[a|e|] p1] eqn:Hg1;
          [ destruct (reporter_prompt (analysed_state body a)) as [q2|] eqn:Hq2;
            [ destruct (generate (report_model apiKey) p1 q2)
                as [[r|e|] p2] eqn:Hg2
            | ]
          | | ]
        | ]
      | rewrite !generate_report_invalid by assumption ]
    | rewrite !generate_report_no_key by assumption ].

(** On a valid request with the credential set, once the analyst prompt is
    built the analyst call is made first; the reporter call follows exactly
    when the analyst call returned a text and the reporter prompt could be
    built on the state holding that text. *)
Lemma valid_request_calls apiKey body p q1 :
  truthy apiKey = true ->
  request_valid body = true ->
  analyst_prompt (request_state body) = Some q1 ->
  exists r1 rest,
    model_calls (generate_report generate apiKey body p).2 = (q1, r1) :: rest
    /\ r1 = (generate (report_model apiKey) p q1).1
    /\ (forall a q2, r1 = Content a ->
          reporter_prompt (analysed_state body a) = Some q2 ->
          exists r2, rest = [(q2, r2)])
    /\ (forall a, r1 = Content a ->
          reporter_prompt (analysed_state body a) = None -> rest = [])
    /\ ((forall a, r1 <> Content a) -> rest = []).
Proof.
  intros Hkey Hok Hq1. rewrite generate_report_valid by assumption. cbn zeta.
  rewrite Hq1.
  destruct (generate (report_model apiKey) p q1) as [[a|e|] p1].
  - destruct (reporter_prompt (analysed_state body a)) as [q2|] eqn:Hq2.
    + destruct (generate (report_model apiKey) p1 q2) as [r2 p2] eqn:Hg2.
      exists (Content a), [(q2, r2)].
      split; [destruct r2; reflexivity|]. split; [reflexivity|]. split.
      { intros a' q2' [= <-] Hq2'. rewrite Hq2 in Hq2'. injection Hq2' as <-. eauto. }
      split.
      { intros a' [= <-] Hnone. rewrite Hq2 in Hnone. discriminate. }
      intros Hnot. destruct (Hnot a eq_refl).
    + exists (Content a), [].
      split; [reflexivity|]. split; [reflexivity|]. split.
      { intros a' q2' [= <-] Hq2'. rewrite Hq2 in Hq2'. discriminate. }
      split; [reflexivity|]. reflexivity.
  - exists (Failure e), [].
    split; [reflexivity|]. split; [reflexivity|]. split; [discriminate|].
    split; [discriminate | reflexivity].
  - exists Unsettled, [].
    split; [reflexivity|]. split; [reflexivity|]. split; [discriminate|].
    split; [discriminate | reflexivity].
Qed.

(** A valid request with the credential set reaches the graph: the analyst
    node starts. *)
Lemma valid_request_starts_graph apiKey body p :
  truthy apiKey = true ->
  request_valid body = true ->
  exists rest,
    (generate_report generate apiKey body p).2
    = (prelude ++ ConsoleLog "Running analyst node..." :: rest)%list.
Proof.
  intros Hkey Hok. rewrite generate_report_valid by assumption. cbn zeta.
  destruct (analyst_prompt (request_state body)) as [q1|]; [|eexists; reflexivity].
  destruct (generate (report_model apiKey) p q1) as [[a|e|] p1];
    [|eexists; reflexivity..].
  destruct (reporter_prompt (analysed_state body a)) as [q2|];
    [|eexists; reflexivity].
  destruct (generate (report_model apiKey) p1 q2) as [[r|e|] p2];
    eexists; reflexivity.
Qed.

(** C1: on a valid request, whenever the provider is called a second time
    the first call was the analyst's and returned a text, that text is what
    stage 1 stored in the [analysis] field of the state, the second call is
    the reporter's, its prompt is built from that state and holds the text
    verbatim, and it comes after the analyst node has completed; there is no
    third call.  The second call is made whenever the analyst prompt is
    built, the analyst call returns and the reporter prompt is built. *)
Theorem reporter_prompt_holds_analysis apiKey body p :
  truthy apiKey = true ->
  request_valid body = true ->
  (forall q1 r1 q2 r2 rest,
     model_calls (generate_report generate apiKey body p).2
     = (q1, r1) :: (q2, r2) :: rest ->
     rest = []
     /\ analyst_prompt (request_state body) = Some q1
     /\ exists a,
          r1 = Content a
          /\ field (analysed_state body a) "analysis" = JStr a
          /\ reporter_prompt (analysed_state body a) = Some q2
          /\ contains q2 a
          /\ exists after,
               (generate_report generate apiKey body p).2
               = (prelude ++
                  [ ConsoleLog "Running analyst node...";
                    ModelInvoke (report_model apiKey) q1 (Content a);
                    ConsoleLog "Analyst node complete.";
                    ConsoleLog "Running reporter node...";
                    ModelInvoke (report_model apiKey) q2 r2 ] ++ after)%list)
  /\ (forall q1 a p1 q2,
        analyst_prompt (request_state body) = Some q1 ->
        generate (report_model apiKey) p q1 = (Content a, p1) ->
        reporter_prompt (analysed_state body a) = Some q2 ->
        exists r2,
          model_calls (generate_report generate apiKey body p).2
          = [(q1, Content a); (q2, r2)]).
Proof.
  intros Hkey Hok. split.
  - rewrite generate_report_valid by assumption. cbn zeta.
    destruct (analyst_prompt (request_state body)) as [q1|] eqn:Hq1;
      [|intros * [=]].
    destruct (generate (report_model apiKey) p q1) as [[a|e|] p1];
      [|intros * [=]..].
    destruct (reporter_prompt (analysed_state body a)) as [q2|] eqn:Hq2;
      [|intros * [=]].
    assert (Hhold : contains q2 a).
    { apply contains_right with (x := "Analysis of mistakes: ").
      apply (reporter_prompt_analysis (analysed_state body a)); [reflexivity|].
      exact Hq2. }
    destruct (generate (report_model apiKey) p1 q2) as [[r|e|] p2];
      intros * [= <- <- <- <- <-];
      (split; [reflexivity|]); (split; [reflexivity|]);
      exists a; (split; [reflexivity|]); (split; [reflexivity|]);
      (split; [exact Hq2|]); (split; [exact Hhold|]);
      eexists; reflexivity.
  - intros q1 a p1 q2 Hq1 Hg1 Hq2.
    rewrite generate_report_valid by assumption. cbn zeta.
    rewrite Hq1, Hg1, Hq2.
    destruct (generate (report_model apiKey) p1 q2) as [[r|e|] p2];
      eexists; reflexivity.
Qed.

(** C2, as amended: while the credential is set, a request whose body lacks
    one of the five fields is answered 400 with the fixed message, the
    provider is not called and its state is untouched. *)
Theorem missing_field_is_400 apiKey body p k :
  truthy apiKey = true ->
  k ∈ required_fields ->
  k ∉ body.*1 ->
  generate_report generate apiKey body p
  = (Return {| status := 400;
               json := JObj [("error",
                              JStr "Missing required fields in request body.")] |},
     p, [ConsoleLog "Received request to /api/generate-report"])
  /\ model_calls (generate_report generate apiKey body p).2 = [].
Proof.
  intros Hkey Hk Habs.
  rewrite generate_report_invalid by eauto using absent_field_invalid.
  split; reflexivity.
Qed.

(** C3: while GEMINI_API_KEY is absent every request is answered 500 with
    the configuration error as details; the error is thrown before the
    validation and before the graph, so the provider is never called and no
    node starts.  An empty GEMINI_API_KEY does the same. *)
Theorem absent_credential_is_500 body p :
  generate_report generate (env_value None) body p
  = (Return {| status := 500;
               json := JObj [("error",
                              JStr "An internal error occurred while generating the report.");
                             ("details",
                              JStr "GEMINI_API_KEY environment variable not set.")] |},
     p,
     [ ConsoleLog "Received request to /api/generate-report";
       ConsoleError "Error generating report:"
         "GEMINI_API_KEY environment variable not set." ])
  /\ model_calls (generate_report generate (env_value None) body p).2 = []
  /\ generate_report generate (env_value (Some "")) body p
     = generate_report generate (env_value None) body p.
Proof.
  rewrite !generate_report_no_key by reflexivity. repeat split.
Qed.


(** C5: when the analyst call fails, the run stops there: the provider has
    been called once, the reporter node never starts, no report is produced,
    and the answer is 500 with the generic message and the error's message
    as details. *)
Theorem analyst_failure_aborts apiKey body p q1 e p1 :
  truthy apiKey = true ->
  request_valid body = true ->
  analyst_prompt (request_state body) = Some q1 ->
  generate (report_model apiKey) p q1 = (Failure e, p1) ->
  generate_report generate apiKey body p
  = (Return {| status := 500;
               json := JObj [("error",
                              JStr "An internal error occurred while generating the report.");
                             ("details", JStr e)] |},
     p1,
     (prelude ++
      [ ConsoleLog "Running analyst node...";
        ModelInvoke (report_model apiKey) q1 (Failure e);
        ConsoleError "Error generating report:" e ])%list)
  /\ model_calls (generate_report generate apiKey body p).2 = [(q1, Failure e)]
  /\ ConsoleLog "Running reporter node..."
     ∉ (generate_report generate apiKey body p).2.
Proof.
  intros Hkey Hok Hq1 Hgen.
  rewrite generate_report_valid by assumption. cbn zeta. rewrite Hq1, Hgen.
  split; [reflexivity|]. split; [reflexivity|].
  cbn [snd prelude app].
  rewrite !not_elem_of_cons. repeat split; try discriminate.
  apply not_elem_of_nil.
Qed.

(** C6, as amended: the validation passes exactly when studentName, grade,
    totalItems and incorrectWords are non-falsy and score is not
    [undefined]; a score of 0 therefore counts as present, and a request
    with score 0 and the other four fields non-falsy passes the validation
    and the pipeline runs: the graph is invoked, the analyst node starts,
    and its call is made once its prompt is built. *)
Theorem validation_needs_defined_score apiKey body p :
  truthy apiKey = true ->
  (request_valid body = true <->
     truthy (get_prop body "studentName") = true
     /\ truthy (get_prop body "grade") = true
     /\ get_prop body "score" <> JUndefined
     /\ truthy (get_prop body "totalItems") = true
     /\ truthy (get_prop body "incorrectWords") = true)
  /\ (get_prop body "score" = JNum Zero ->
      truthy (get_prop body "studentName") = true ->
      truthy (get_prop body "grade") = true ->
      truthy (get_prop body "totalItems") = true ->
      truthy (get_prop body "incorrectWords") = true ->
      request_valid body = true
      /\ (exists rest,
            (generate_report generate apiKey body p).2
            = (prelude ++ ConsoleLog "Running analyst node..." :: rest)%list)
      /\ (forall q1,
            analyst_prompt (request_state body) = Some q1 ->
            exists r1 rest,
              model_calls (generate_report generate apiKey body p).2
              = (q1, r1) :: rest)).
Proof.
  intros Hkey. split; [apply request_valid_iff|].
  intros Hs Hn Hg Ht Hw.
  assert (Hok : request_valid body = true).
  { apply request_valid_iff. rewrite Hs. repeat split; auto; discriminate. }
  split; [exact Hok|]. split.
  - apply valid_request_starts_graph; assumption.
  - intros q1 Hq1.
    destruct (valid_request_calls apiKey body p q1 Hkey Hok Hq1)
      as (r1 & rest & Hc & _).
    eauto.
Qed.

(** With replies fixed by the prompt, what the handler answers and logs does
    not depend on the state the provider is in. *)
Lemma fixed_replies_state_independent
    (f : ChatGoogleGenerativeAI -> string -> GenResult) apiKey body p p' :
  (forall m s q, (generate m s q).1 = f m q) ->
  (generate_report generate apiKey body p).1.1
  = (generate_report generate apiKey body p').1.1
  /\ (generate_report generate apiKey body p).2
     = (generate_report generate apiKey body p').2.
Proof.
  intros Hf.
  destruct (truthy apiKey) eqn:Hkey;
    [|rewrite !generate_report_no_key by assumption; split; reflexivity].
  destruct (request_valid body) eqn:Hok;
    [|rewrite !generate_report_invalid by assumption; split; reflexivity].
  rewrite !generate_report_valid by assumption. cbn zeta.
  set (m := report_model apiKey).
  destruct (analyst_prompt (request_state body)) as [q1|]; [|split; reflexivity].
  pose proof (Hf m p q1) as H1. pose proof (Hf m p' q1) as H1'.
  destruct (generate m p q1) as [r1 s1], (generate m p' q1) as [r1' s1'].
  simpl in H1, H1'. subst r1 r1'.
  destruct (f m q1) as [a|e|]; [|split; reflexivity..].
  destruct (reporter_prompt (analysed_state body a)) as [q2|];
    [|split; reflexivity].
  pose proof (Hf m s1 q2) as H2. pose proof (Hf m s1' q2) as H2'.
  destruct (generate m s1 q2) as [r2 s2], (generate m s1' q2) as [r2' s2'].
  simpl in H2, H2'. subst r2 r2'.
  destruct (f m q2); split; reflexivity.
Qed.

(** C7: when the provider's reply is fixed by the prompt, two runs of the
    handler on the same request, the second starting where the first left
    the provider, give the same answer, hence the same report text, and the
    same prompts: the handler keeps nothing between requests. *)
Theorem two_runs_same_report
    (f : ChatGoogleGenerativeAI -> string -> GenResult) apiKey body p :
  (forall m s q, (generate m s q).1 = f m q) ->
  (serve_twice generate apiKey body body p).1.1
  = (serve_twice generate apiKey body body p).2.1
  /\ (serve_twice generate apiKey body body p).1.2
     = (serve_twice generate apiKey body body p).2.2.
Proof.
  intros Hf. unfold serve_twice.
  destruct (generate_report generate apiKey body p) as [[o1 p1] t1] eqn:E1.
  pose proof (fixed_replies_state_independent f apiKey body p p1 Hf) as [Ho Ht].
  rewrite E1 in Ho, Ht.
  destruct (generate_report generate apiKey body p1) as [[o2 p2] t2].
  simpl in *. split; assumption.
Qed.

(** C8: a request whose incorrectWords is the empty list and whose other
    fields pass the validation and convert to text passes the validation;
    the analyst prompt is built and holds the list as the text [[]]; the
    analyst call is made, and the reporter call follows once it returns;
    when both return, the answer is 200 with the text of the reporter
    call. *)
Theorem empty_word_list_runs_both_stages apiKey body p name grade score total :
  truthy apiKey = true ->
  truthy (get_prop body "studentName") = true ->
  truthy (get_prop body "grade") = true ->
  get_prop body "score" <> JUndefined ->
  truthy (get_prop body "totalItems") = true ->
  get_prop body "incorrectWords" = JArr [] ->
  ToString (get_prop body "studentName") = Some name ->
  ToString (get_prop body "grade") = Some grade ->
  ToString (get_prop body "score") = Some score ->
  ToString (get_prop body "totalItems") = Some total ->
  request_valid body = true
  /\ analyst_prompt (request_state body) = Some (analyst_text name grade "[]")
  /\ contains (analyst_text name grade "[]")
       "Incorrect words (correct -> student's attempt): []"
  /\ (exists r1 rest,
        model_calls (generate_report generate apiKey body p).2
        = (analyst_text name grade "[]", r1) :: rest
        /\ forall a, r1 = Content a ->
             exists r2, rest = [(reporter_text name grade score total a, r2)])
  /\ (forall a p1 r p2,
        generate (report_model apiKey) p (analyst_text name grade "[]")
        = (Content a, p1) ->
        generate (report_model apiKey) p1 (reporter_text name grade score total a)
        = (Content r, p2) ->
        (generate_report generate apiKey body p).1.1
        = Return {| status := 200; json := JObj [("report", JStr r)] |}).
Proof.
  intros Hkey Hn Hg Hs Ht Hw Tn Tg Ts Tt.
  assert (Hok : request_valid body = true).
  { apply request_valid_iff. rewrite Hw. repeat split; auto. }
  assert (Hq1 : analyst_prompt (request_state body)
                = Some (analyst_text name grade "[]")).
  { apply analyst_prompt_Some. exists name, grade.
    destruct (request_state_fields body) as (-> & -> & _ & _ & -> & _).
    rewrite Hw. repeat split; assumption. }
  assert (Hq2 : forall a, reporter_prompt (analysed_state body a)
                          = Some (reporter_text name grade score total a)).
  { intros a. apply reporter_prompt_Some. exists name, grade, score, total, a.
    destruct (analysed_state_fields body a) as (-> & -> & -> & -> & _ & -> & _).
    repeat split; assumption. }
  split; [exact Hok|]. split; [exact Hq1|]. split.
  { pose proof (analyst_prompt_words (request_state body) _ Hq1) as Hc.
    replace (field (request_state body) "incorrectWords") with (JArr [])
      in Hc by (rewrite <- Hw; reflexivity).
    exact Hc. }
  split.
  { destruct (valid_request_calls apiKey body p _ Hkey Hok Hq1)
      as (r1 & rest & Hc & _ & Hrep & _).
    exists r1, rest. split; [exact Hc|].
    intros a Ha. exact (Hrep a _ Ha (Hq2 a)). }
  intros a p1 r p2 Hgen1 Hgen2.
  rewrite generate_report_valid by assumption. cbn zeta.
  rewrite Hq1, Hgen1, Hq2, Hgen2. reflexivity.
Qed.

(** C9: while the credential is unset, a request that fails the field
    validation is still answered 500 with the configuration error, not 400,
    and the provider is not called: the credential is checked first.  The
    same request is answered 400 once the credential is set. *)
Theorem credential_check_precedes_validation body p :
  request_valid body = false ->
  (generate_report generate (env_value None) body p).1.1
  = Return {| status := 500;
              json := JObj [("error",
                             JStr "An internal error occurred while generating the report.");
                            ("details",
                             JStr "GEMINI_API_KEY environment variable not set.")] |}
  /\ (forall response,
        (generate_report generate (env_value None) body p).1.1 = Return response ->
        status response <> 400%Z)
  /\ model_calls (generate_report generate (env_value None) body p).2 = []
  /\ (forall key, truthy (env_value (Some key)) = true ->
        (generate_report generate (env_value (Some key)) body p).1.1
        = Return bad_request).
Proof.
  intros Hbad. rewrite generate_report_no_key by reflexivity.
  split; [reflexivity|]. split.
  { intros response [= <-]. discriminate. }
  split; [reflexivity|].
  intros key Hkey. rewrite generate_report_invalid by assumption. reflexivity.
Qed.

(** C10: with the other four fields non-falsy, the validation rejects the
    request only when score is [undefined]; null, false, the empty string
    and every number, negative ones included, are not [undefined] and
    convert to text, so such a request passes; the score is written to the
    state as it is, and the prompt of the reporter call the handler makes
    shows the text of that score. *)
Theorem score_rejected_only_when_undefined apiKey body p :
  truthy apiKey = true ->
  truthy (get_prop body "studentName") = true ->
  truthy (get_prop body "grade") = true ->
  truthy (get_prop body "totalItems") = true ->
  truthy (get_prop body "incorrectWords") = true ->
  (request_valid body = false <-> get_prop body "score" = JUndefined)
  /\ (forall n, get_prop body "score" ∈ [JNull; JBool false; JStr ""; JNum n] ->
        request_valid body = true
        /\ ToString (get_prop body "score")
           ∈ [Some "null"; Some "false"; Some ""; Some (number_to_string n)])
  /\ (get_prop body "score" <> JUndefined ->
      request_valid body = true
      /\ field (request_state body) "score" = get_prop body "score"
      /\ (forall q1,
            analyst_prompt (request_state body) = Some q1 ->
            exists r1 rest,
              model_calls (generate_report generate apiKey body p).2
              = (q1, r1) :: rest)
      /\ (forall q1 a p1 q2,
            analyst_prompt (request_state body) = Some q1 ->
            generate (report_model apiKey) p q1 = (Content a, p1) ->
            reporter_prompt (analysed_state body a) = Some q2 ->
            exists score r2,
              ToString (get_prop body "score") = Some score
              /\ contains q2 ("Score: " +:+ score +:+ "/")
              /\ model_calls (generate_report generate apiKey body p).2
                 = [(q1, Content a); (q2, r2)])).
Proof.
  intros Hkey Hn Hg Ht Hw.
  assert (Hdef : get_prop body "score" <> JUndefined -> request_valid body = true).
  { intros Hs. apply request_valid_iff. repeat split; auto. }
  split; [|split].
  - split.
    + intros Hbad. destruct (get_prop body "score") eqn:Hs; try reflexivity;
        rewrite Hdef in Hbad by discriminate; discriminate.
    + intros Hs. apply not_true_iff_false. rewrite request_valid_iff.
      intros (_ & _ & Hs' & _). contradiction.
  - intros n Hin. split.
    + apply Hdef. intros Hs. rewrite Hs in Hin.
      repeat (apply elem_of_cons in Hin as [Hin|Hin]; [discriminate|]).
      apply elem_of_nil in Hin. contradiction.
    + repeat (apply elem_of_cons in Hin as [->|Hin];
              [cbn [ToString]; rewrite !elem_of_cons; auto 10|]).
      apply elem_of_nil in Hin. contradiction.
  - intros Hs. split; [auto|]. split; [reflexivity|]. split.
    + intros q1 Hq1.
      destruct (valid_request_calls apiKey body p q1 Hkey (Hdef Hs) Hq1)
        as (r1 & rest & Hc & _).
      eauto.
    + intros q1 a p1 q2 Hq1 Hg1 Hq2.
      destruct (reporter_prompt_score _ _ Hq2) as (score & Hscore & Hhold).
      destruct (analysed_state_fields body a) as (_ & _ & Hfield & _).
      rewrite Hfield in Hscore.
      rewrite generate_report_valid by auto. cbn zeta.
      rewrite Hq1, Hg1, Hq2.
      destruct (generate (report_model apiKey) p1 q2) as [[r|e|] p2];
        exists score; eexists; (split; [exact Hscore|]);
        (split; [exact Hhold | reflexivity]).
Qed.

End Claims.

(** ** The properties on sample runs *)

(** The first scenario: the scripted provider's report comes back as it
    is. *)
Example alex_scenario :
  (generate_report (scripted alex_analysis alex_report) test_key alex_request 0%nat).1.1
  = Return {| status := 200; json := JObj [("report", JStr alex_report)] |}.
Proof. vm_compute. reflexivity. Qed.

Lemma reporter_prompt_holds_analysis_witness :
  truthy test_key = true
  /\ request_valid alex_request = true
  /\ exists q1 q2,
       model_calls
         (generate_report (scripted alex_analysis alex_report) test_key
            alex_request 0%nat).2
       = [(q1, Content alex_analysis); (q2, Content alex_report)]
       /\ reporter_prompt (analysed_state alex_request alex_analysis) = Some q2
       /\ contains q2 alex_analysis.
Proof.
  split; [reflexivity|]. split; [reflexivity|].
  destruct (reporter_prompt_holds_analysis nat (scripted alex_analysis alex_report)
              test_key alex_request 0%nat eq_refl eq_refl) as [Hshape _].
  eexists _, _. split; [reflexivity|].
  edestruct Hshape as (_ & _ & a & Ha & _ & Hq2 & Hhold & _); [reflexivity|].
  injection Ha as <-. split; [exact Hq2 | exact Hhold].
Defined.

(** C2 as it is stated does not hold: with GEMINI_API_KEY unset, a request
    that lacks its score is answered 500, not 400. *)
Lemma missing_field_without_credential_is_500 :
  "score" ∈ required_fields
  /\ ("score" ∉ alex_without_score.*1)
  /\ (generate_report echo (env_value None) alex_without_score 0%nat).1.1
     = Return (internal_error "GEMINI_API_KEY environment variable not set.")
  /\ (generate_report echo (env_value None) alex_without_score 0%nat).1.1
     <> Return bad_request.
Proof.
  split; [apply (bool_decide_unpack _); vm_compute; exact I|].
  split; [apply (bool_decide_unpack _); vm_compute; exact I|].
  split; [vm_compute; reflexivity|].
  vm_compute. discriminate.
Qed.

Lemma missing_field_is_400_witness :
  truthy test_key = true
  /\ "score" ∈ required_fields
  /\ ("score" ∉ alex_without_score.*1)
  /\ (generate_report echo test_key alex_without_score 0%nat).1.1 = Return bad_request
  /\ model_calls (generate_report echo test_key alex_without_score 0%nat).2 = [].
Proof.
  assert (Hin : "score" ∈ required_fields)
    by (apply (bool_decide_unpack _); vm_compute; exact I).
  assert (Hout : "score" ∉ alex_without_score.*1)
    by (apply (bool_decide_unpack _); vm_compute; exact I).
  destruct (missing_field_is_400 nat echo test_key alex_without_score 0%nat "score"
              eq_refl Hin Hout) as [Hrun Hcalls].
  split; [reflexivity|]. split; [exact Hin|]. split; [exact Hout|].
  split; [rewrite Hrun; reflexivity | exact Hcalls].
Defined.



Lemma analyst_failure_aborts_witness :
  (generate_report unavailable test_key alex_request 0%nat).1.1
  = Return (internal_error "503 Service Unavailable")
  /\ model_calls (generate_report unavailable test_key alex_request 0%nat).2
     = [ (analyst_text "Alex" "3"
            (json_text (get_prop alex_request "incorrectWords")),
          Failure "503 Service Unavailable") ].
Proof.
  destruct (analyst_failure_aborts nat unavailable test_key alex_request 0%nat
              (analyst_text "Alex" "3"
                 (json_text (get_prop alex_request "incorrectWords")))
              "503 Service Unavailable" 1%nat)
    as (Hrun & Hcalls & _); [reflexivity | reflexivity | reflexivity | reflexivity |].
  split; [rewrite Hrun; reflexivity | exact Hcalls].
Defined.

(** C6 as it is stated does not hold: a score of [null] is falsy and is not
    0, yet the request passes the validation and is answered 200. *)
Lemma null_score_passes_validation :
  truthy (get_prop (alex_with_score JNull) "score") = false
  /\ get_prop (alex_with_score JNull) "score" <> JNum Zero
  /\ described_valid (alex_with_score JNull) = false
  /\ request_valid (alex_with_score JNull) = true
  /\ (generate_report (scripted alex_analysis alex_report) test_key
        (alex_with_score JNull) 0%nat).1.1
     = Return (report_response (JStr alex_report)).
Proof.
  split; [reflexivity|]. split; [discriminate|]. split; [reflexivity|].
  split; [reflexivity|]. vm_compute. reflexivity.
Qed.

Lemma validation_needs_defined_score_witness :
  truthy test_key = true
  /\ get_prop (alex_with_score (JInt 0)) "score" = JNum Zero
  /\ request_valid (alex_with_score (JInt 0)) = true
  /\ exists r1 rest,
       model_calls (generate_report echo test_key (alex_with_score (JInt 0)) 0%nat).2
       = (analyst_text "Alex" "3"
            (json_text (get_prop alex_request "incorrectWords")), r1) :: rest.
Proof.
  destruct (validation_needs_defined_score nat echo test_key
              (alex_with_score (JInt 0)) 0%nat eq_refl) as [_ Hzero].
  destruct (Hzero eq_refl eq_refl eq_refl eq_refl eq_refl) as (Hok & _ & Hcalls).
  split; [reflexivity|]. split; [reflexivity|]. split; [exact Hok|].
  apply Hcalls. reflexivity.
Defined.

Lemma two_runs_same_report_witness :
  (forall m s q, (echo m s q).1 = Content ("<p>" +:+ q +:+ "</p>"))
  /\ (serve_twice echo test_key alex_request alex_request 0%nat).1.1
     = (serve_twice echo test_key alex_request alex_request 0%nat).2.1
  /\ (serve_twice echo test_key alex_request alex_request 0%nat).1.2
     = (serve_twice echo test_key alex_request alex_request 0%nat).2.2.
Proof.
  assert (Hfixed : forall m s q, (echo m s q).1 = Content ("<p>" +:+ q +:+ "</p>"))
    by (intros m s q; reflexivity).
  split; [exact Hfixed|].
  exact (two_runs_same_report nat echo (fun _ q => Content ("<p>" +:+ q +:+ "</p>"))
           test_key alex_request 0%nat Hfixed).
Defined.

Lemma empty_word_list_runs_both_stages_witness :
  get_prop flawless_request "incorrectWords" = JArr []
  /\ request_valid flawless_request = true
  /\ contains (analyst_text "Alex" "3B" "[]")
       "Incorrect words (correct -> student's attempt): []"
  /\ (generate_report (scripted alex_analysis alex_report) test_key
        flawless_request 0%nat).1.1
     = Return {| status := 200; json := JObj [("report", JStr alex_report)] |}.
Proof.
  destruct (empty_word_list_runs_both_stages nat (scripted alex_analysis alex_report)
              test_key flawless_request 0%nat "Alex" "3B" "10" "10")
    as (Hok & _ & Hprompt & _ & Hrun);
    [reflexivity | reflexivity | reflexivity | discriminate | reflexivity
    | reflexivity | reflexivity | reflexivity | reflexivity | reflexivity |].
  split; [reflexivity|]. split; [exact Hok|]. split; [exact Hprompt|].
  apply (Hrun alex_analysis 1%nat alex_report 2%nat); reflexivity.
Defined.

Lemma credential_check_precedes_validation_witness :
  request_valid alex_without_score = false
  /\ (generate_report echo (env_value None) alex_without_score 0%nat).1.1
     = Return (internal_error "GEMINI_API_KEY environment variable not set.")
  /\ (generate_report echo test_key alex_without_score 0%nat).1.1
     = Return bad_request.
Proof.
  destruct (credential_check_precedes_validation nat echo alex_without_score 0%nat
              eq_refl) as (Hrun & _ & _ & Hset).
  split; [reflexivity|]. split; [exact Hrun | apply Hset; reflexivity].
Defined.

Lemma score_rejected_only_when_undefined_witness :
  request_valid (alex_with_score JNull) = true
  /\ request_valid (alex_with_score (JBool false)) = true
  /\ request_valid (alex_with_score (JStr "")) = true
  /\ request_valid (alex_with_score (JInt (-4))) = true
  /\ (exists q2 r2,
        model_calls (generate_report (scripted alex_analysis alex_report) test_key
                       (alex_with_score JNull) 0%nat).2
        = [ (analyst_text "Alex" "3"
               (json_text (get_prop alex_request "incorrectWords")),
             Content alex_analysis); (q2, r2) ]
        /\ contains q2 "Score: null/")
  /\ (exists q2 r2,
        model_calls (generate_report (scripted alex_analysis alex_report) test_key
                       (alex_with_score (JNum (Finite true 75 1))) 0%nat).2
        = [ (analyst_text "Alex" "3"
               (json_text (get_prop alex_request "incorrectWords")),
             Content alex_analysis); (q2, r2) ]
        /\ contains q2 "Score: -7.5/").
Proof.
  pose proof (fun sc => score_rejected_only_when_undefined nat
                          (scripted alex_analysis alex_report) test_key
                          (alex_with_score sc) 0%nat
                          eq_refl eq_refl eq_refl eq_refl eq_refl) as H.
  destruct (H JNull) as (_ & _ & Hnull).
  destruct (H (JBool false)) as (_ & _ & Hfalse).
  destruct (H (JStr "")) as (_ & _ & Hempty).
  destruct (H (JInt (-4))) as (_ & _ & Hneg).
  destruct (H (JNum (Finite true 75 1))) as (_ & _ & Hfrac).
  destruct Hnull as (Hnull & _ & _ & Hnullrun); [discriminate|].
  destruct Hfalse as [Hfalse _]; [discriminate|].
  destruct Hempty as [Hempty _]; [discriminate|].
  destruct Hneg as [Hneg _]; [discriminate|].
  destruct Hfrac as (_ & _ & _ & Hfracrun); [discriminate|].
  split; [exact Hnull|]. split; [exact Hfalse|]. split; [exact Hempty|].
  split; [exact Hneg|]. split.
  - edestruct Hnullrun as (score & r2 & Hscore & Hhold & Hcalls);
      [reflexivity | reflexivity | reflexivity |].
    injection Hscore as <-. eexists _, r2. split; [exact Hcalls | exact Hhold].
  - edestruct Hfracrun as (score & r2 & Hscore & Hhold & Hcalls);
      [reflexivity | reflexivity | reflexivity |].
    injection Hscore as <-. eexists _, r2. split; [exact Hcalls | exact Hhold].
Defined.

(** ** Further properties of the handler *)

(** A string, a number, a boolean, [null] and [undefined] always convert. *)
Lemma primitive_convertible (v : JsValue) :
  match v with JArr _ | JObj _ => True | _ => convertible v = true end.
Proof. destruct v as [| |[]| | | |]; exact I || reflexivity. Qed.

(** When the four fields convert, both prompts are built. *)
Lemma convertible_prompts (body : list (string * JsValue)) :
  fields_convertible body = true ->
  (exists q1, analyst_prompt (request_state body) = Some q1)
  /\ (forall a, exists q2, reporter_prompt (analysed_state body a) = Some q2).
Proof.
  unfold fields_convertible, convertible. rewrite !andb_true_iff.
  intros (((Hn & Hg) & Hs) & Ht).
  destruct (ToString (get_prop body "studentName")) as [name|] eqn:Tn;
    [|discriminate].
  destruct (ToString (get_prop body "grade")) as [grade|] eqn:Tg; [|discriminate].
  destruct (ToString (get_prop body "score")) as [score|] eqn:Ts; [|discriminate].
  destruct (ToString (get_prop body "totalItems")) as [total|] eqn:Tt;
    [|discriminate].
  split.
  - eexists. apply analyst_prompt_Some. exists name, grade.
    destruct (request_state_fields body) as (-> & -> & _).
    repeat split; assumption.
  - intros a. eexists. apply reporter_prompt_Some.
    exists name, grade, score, total, a.
    destruct (analysed_state_fields body a) as (-> & -> & -> & -> & _ & -> & _).
    repeat split; assumption.
Qed.

Section Further.

Variable Provider : Type.
Variable generate :
  ChatGoogleGenerativeAI -> Provider -> string -> GenResult * Provider.

(** The run of the handler, case by case: the credential, the validation,
    the analyst prompt and call, the reporter prompt and call. *)
Ltac handler_cases apiKey body p :=
  destruct (truthy apiKey) eqn:Hkey;
    [ destruct (request_valid body) eqn:Hok;
      [ rewrite !generate_report_valid by assumption; cbn zeta;
        destruct (analyst_prompt (request_state body)) as [q1|] eqn:Hq1;
        [ destruct (generate (report_model apiKey) p q1) as [[a|e|] p1] eqn:Hg1;
          [ destruct (reporter_prompt (analysed_state body a)) as [q2|] eqn:Hq2;
            [ destruct (generate (report_model apiKey) p1 q2)
                as [[r|e|] p2] eqn:Hg2
            | ]
          | | ]
        | ]
      | rewrite !generate_report_invalid by assumption ]
    | rewrite !generate_report_no_key by assumption ].

(** X3: when the analyst call returns and the reporter call fails, the answer is
    500 with the reporter's error as details: the provider was called twice,
    the error is logged once, the graph run does not complete, and the
    response is the error object, without the analysis obtained. *)
Theorem reporter_failure_is_500 apiKey body p q1 a p1 q2 e p2 :
  truthy apiKey = true ->
  request_valid body = true ->
  analyst_prompt (request_state body) = Some q1 ->
  generate (report_model apiKey) p q1 = (Content a, p1) ->
  reporter_prompt (analysed_state body a) = Some q2 ->
  generate (report_model apiKey) p1 q2 = (Failure e, p2) ->
  (generate_report generate apiKey body p).1
  = (Return {| status := 500;
               json := JObj [("error",
                              JStr "An internal error occurred while generating the report.");
                             ("details", JStr e)] |}, p2)
  /\ model_calls (generate_report generate apiKey body p).2
     = [(q1, Content a); (q2, Failure e)]
  /\ logged_errors (generate_report generate apiKey body p).2 = [e]
  /\ ConsoleLog "Graph invocation complete."
     ∉ (generate_report generate apiKey body p).2.
Proof.
  intros Hkey Hok Hq1 Hgen1 Hq2 Hgen2.
  rewrite generate_report_valid by assumption. cbn zeta.
  rewrite Hq1, Hgen1, Hq2, Hgen2.
  split; [reflexivity|]. split; [reflexivity|]. split; [reflexivity|].
  cbn [snd prelude app].
  rewrite !not_elem_of_cons. repeat split; try discriminate.
  apply not_elem_of_nil.
Qed.

(** X2: the provider is called at most twice per request, only with the model
    built from the credential, only when the credential is set and the
    validation passed; a request that makes no call leaves the provider as
    it was. *)
Theorem provider_calls_bounded apiKey body p :
  length (model_calls (generate_report generate apiKey body p).2) <= 2
  /\ (forall m q r,
        ModelInvoke m q r ∈ (generate_report generate apiKey body p).2 ->
        m = {| model_apiKey := apiKey; modelName := "gemini-2.0-flash" |}
        /\ truthy apiKey = true /\ request_valid body = true)
  /\ (model_calls (generate_report generate apiKey body p).2 = [] ->
      (generate_report generate apiKey body p).1.2 = p).
Proof.
  handler_cases apiKey body p; simpl;
    (split; [lia|]); (split; [|try discriminate; reflexivity]);
    intros m q r0 Hin;
    repeat (apply elem_of_cons in Hin as [Hin|Hin];
            [try discriminate; injection Hin as -> _ _; auto|]);
    apply elem_of_nil in Hin; contradiction.
Qed.

(** X5: a falsy studentName, grade, totalItems or incorrectWords is answered 400
    although the field is present: a grade of 0, a totalItems of 0, an
    empty studentName and a null word list are all rejected, and the
    provider is not called. *)
Theorem falsy_field_is_400 apiKey body p k :
  truthy apiKey = true ->
  k ∈ ["studentName"; "grade"; "totalItems"; "incorrectWords"] ->
  truthy (get_prop body k) = false ->
  generate_report generate apiKey body p
  = (Return {| status := 400;
               json := JObj [("error",
                              JStr "Missing required fields in request body.")] |},
     p, [ConsoleLog "Received request to /api/generate-report"]).
Proof.
  intros Hkey Hk Hfalsy. apply generate_report_invalid; [assumption|].
  apply not_true_iff_false. rewrite request_valid_iff.
  intros (Hn & Hg & _ & Ht & Hw).
  repeat (apply elem_of_cons in Hk as [->|Hk]; [congruence|]).
  apply elem_of_nil in Hk. contradiction.
Qed.

(** X6: the handler reads the five fields and nothing else of the body: two
    bodies that agree on them, whatever else they hold and in whatever
    order, get the same answer, the same provider calls and the same log. *)
Theorem only_required_fields_matter apiKey body body' p :
  (forall k, k ∈ required_fields -> get_prop body k = get_prop body' k) ->
  generate_report generate apiKey body p = generate_report generate apiKey body' p.
Proof.
  intros Hsame.
  assert (Hin : forall k, bool_decide (k ∈ required_fields) = true ->
                          get_prop body k = get_prop body' k)
    by (intros k Hk; apply Hsame; exact (bool_decide_eq_true_1 _ Hk)).
  unfold generate_report, generate_report_try.
  rewrite (Hin "studentName" eq_refl), (Hin "grade" eq_refl),
    (Hin "score" eq_refl), (Hin "totalItems" eq_refl),
    (Hin "incorrectWords" eq_refl).
  reflexivity.
Qed.

(** X7: the analyst prompt is made of studentName, grade and incorrectWords
    only: score and totalItems do not reach the analyst. *)
Theorem analyst_prompt_ignores_score body body' :
  get_prop body "studentName" = get_prop body' "studentName" ->
  get_prop body "grade" = get_prop body' "grade" ->
  get_prop body "incorrectWords" = get_prop body' "incorrectWords" ->
  analyst_prompt (request_state body) = analyst_prompt (request_state body').
Proof.
  intros Hn Hg Hw. unfold analyst_prompt.
  destruct (request_state_fields body) as (-> & -> & _ & _ & -> & _).
  destruct (request_state_fields body') as (-> & -> & _ & _ & -> & _).
  rewrite Hn, Hg, Hw. reflexivity.
Qed.

(** X8: the reporter prompt is made of studentName, grade, score, totalItems
    and the analysis only: the word list reaches the reporter through the
    analysis and in no other way. *)
Theorem reporter_prompt_ignores_words body body' a :
  get_prop body "studentName" = get_prop body' "studentName" ->
  get_prop body "grade" = get_prop body' "grade" ->
  get_prop body "score" = get_prop body' "score" ->
  get_prop body "totalItems" = get_prop body' "totalItems" ->
  reporter_prompt (analysed_state body a) = reporter_prompt (analysed_state body' a).
Proof.
  intros Hn Hg Hs Ht. unfold reporter_prompt.
  destruct (analysed_state_fields body a) as (-> & -> & -> & -> & _ & -> & _).
  destruct (analysed_state_fields body' a) as (-> & -> & -> & -> & _ & -> & _).
  rewrite Hn, Hg, Hs, Ht. reflexivity.
Qed.

Ltac not_in_list :=
  rewrite ?not_elem_of_cons; repeat split; try discriminate; try apply not_elem_of_nil.

Ltac in_list_absurd H :=
  repeat (apply elem_of_cons in H as [H|H]; [discriminate H|]);
  apply elem_of_nil in H; contradiction.

(** X1: for a request whose studentName, grade, score and totalItems convert to
    text (any string, number, boolean or null does), the handler answers
    unless a provider call never settles, with status 200, 400 or 500, and
    each status has one cause: 400 is a failed validation under a set
    credential, 500 is an unset credential or a failed provider call, 200 is
    a set credential, a passed validation and no failed provider call. *)
Theorem response_status_cases apiKey body p :
  fields_convertible body = true ->
  ((generate_report generate apiKey body p).1.1 = Pending
   /\ exists q, (q, Unsettled) ∈ model_calls (generate_report generate apiKey body p).2)
  \/ ((forall q, (q, Unsettled) ∉ model_calls (generate_report generate apiKey body p).2)
      /\ exists response,
           (generate_report generate apiKey body p).1.1 = Return response
           /\ (status response = 200 \/ status response = 400
               \/ status response = 500)%Z
           /\ (status response = 400%Z <->
               truthy apiKey = true /\ request_valid body = false)
           /\ (status response = 500%Z <->
               truthy apiKey = false
               \/ exists q e,
                    (q, Failure e)
                    ∈ model_calls (generate_report generate apiKey body p).2)
           /\ (status response = 200%Z <->
               truthy apiKey = true /\ request_valid body = true
               /\ forall q e,
                    (q, Failure e)
                    ∉ model_calls (generate_report generate apiKey body p).2)).
Proof.
  intros Hconv.
  destruct (convertible_prompts body Hconv) as [[q1' Hq1'] Hq2'].
  handler_cases apiKey body p; simpl.
  - (* both calls returned *)
    right. split; [intros q; not_in_list|].
    eexists. split; [reflexivity|]. simpl.
    split; [auto|]. split; [split; [discriminate | intros [_ [=]]]|].
    split.
    + split; [discriminate|]. intros [[=]|(q & e' & Hin)]. in_list_absurd Hin.
    + split; [|reflexivity]. intros _. split; [reflexivity|].
      split; [reflexivity|]. intros q e'. not_in_list.
  - (* the reporter call failed *)
    right. split; [intros q; not_in_list|].
    eexists. split; [reflexivity|]. simpl.
    split; [auto|]. split; [split; [discriminate | intros [_ [=]]]|].
    split.
    + split; [|reflexivity]. intros _. right. exists q2, e.
      apply list_elem_of_further, list_elem_of_here.
    + split; [discriminate|]. intros (_ & _ & Hnone). exfalso.
      apply (Hnone q2 e). apply list_elem_of_further, list_elem_of_here.
  - (* the reporter call never settled *)
    left. split; [reflexivity|]. exists q2.
    apply list_elem_of_further, list_elem_of_here.
  - (* the reporter prompt is built *)
    destruct (Hq2' a) as [q2 Hq2'']. congruence.
  - (* the analyst call failed *)
    right. split; [intros q; not_in_list|].
    eexists. split; [reflexivity|]. simpl.
    split; [auto|]. split; [split; [discriminate | intros [_ [=]]]|].
    split.
    + split; [|reflexivity]. intros _. right. exists q1, e.
      apply list_elem_of_here.
    + split; [discriminate|]. intros (_ & _ & Hnone). exfalso.
      apply (Hnone q1 e). apply list_elem_of_here.
  - (* the analyst call never settled *)
    left. split; [reflexivity|]. exists q1. apply list_elem_of_here.
  - (* the analyst prompt is built *)
    congruence.
  - (* the validation failed *)
    right. split; [intros q; apply not_elem_of_nil|].
    eexists. split; [reflexivity|]. simpl.
    split; [auto|]. split; [split; auto|]. split.
    + split; [discriminate|]. intros [[=]|(q & e & Hin)].
      apply elem_of_nil in Hin. contradiction.
    + split; [discriminate | intros (_ & [=] & _)].
  - (* no credential *)
    right. split; [intros q; apply not_elem_of_nil|].
    eexists. split; [reflexivity|]. simpl.
    split; [auto|]. split; [split; [discriminate | intros [[=] _]]|]. split.
    + split; auto.
    + split; [discriminate | intros ([=] & _)].
Qed.

(** X4: the error log of a run holds exactly one entry when the answer is 500,
    the message the response carries as details, and no entry otherwise:
    a 200, a 400 and a request left without an answer log no error. *)
Theorem errors_logged_iff_500 apiKey body p :
  (exists details,
     (generate_report generate apiKey body p).1.1
     = Return {| status := 500;
                 json := JObj [("error",
                                JStr "An internal error occurred while generating the report.");
                               ("details", JStr details)] |}
     /\ logged_errors (generate_report generate apiKey body p).2 = [details])
  \/ (logged_errors (generate_report generate apiKey body p).2 = []
      /\ forall response,
           (generate_report generate apiKey body p).1.1 = Return response ->
           status response <> 500%Z).
Proof.
  handler_cases apiKey body p; simpl;
    first [ left; eexists; split; reflexivity
          | right; split; [reflexivity|]; intros response [= <-]; discriminate
          | right; split; [reflexivity|]; intros response [=] ].
Qed.

(** X14: a studentName or grade that does not convert to text, such as an
    object with a property named toString, passes the validation, and the
    request is then answered 500 with the TypeError's message as details:
    the analyst node starts, no prompt is built and the provider is not
    called. *)
Theorem unconvertible_name_is_500 apiKey body p :
  truthy apiKey = true ->
  request_valid body = true ->
  convertible (get_prop body "studentName") = false
  \/ convertible (get_prop body "grade") = false ->
  generate_report generate apiKey body p
  = (Return {| status := 500;
               json := JObj [("error",
                              JStr "An internal error occurred while generating the report.");
                             ("details",
                              JStr "Cannot convert object to primitive value")] |},
     p,
     (prelude ++
      [ ConsoleLog "Running analyst node...";
        ConsoleError "Error generating report:"
          "Cannot convert object to primitive value" ])%list)
  /\ model_calls (generate_report generate apiKey body p).2 = [].
Proof.
  intros Hkey Hok Hbad.
  assert (Hnone : analyst_prompt (request_state body) = None).
  { apply analyst_prompt_None.
    destruct (request_state_fields body) as (-> & -> & _). exact Hbad. }
  rewrite generate_report_valid by assumption. cbn zeta. rewrite Hnone.
  split; reflexivity.
Qed.

(** X15: a score or totalItems that does not convert to text passes the
    validation and is not needed by the analyst prompt: the analyst call is
    made, and when it returns the reporter prompt cannot be built, so the
    request is answered 500 with the TypeError's message after one provider
    call whose result is discarded. *)
Theorem unconvertible_score_is_500 apiKey body p q1 a p1 :
  truthy apiKey = true ->
  request_valid body = true ->
  analyst_prompt (request_state body) = Some q1 ->
  generate (report_model apiKey) p q1 = (Content a, p1) ->
  convertible (get_prop body "score") = false
  \/ convertible (get_prop body "totalItems") = false ->
  generate_report generate apiKey body p
  = (Return {| status := 500;
               json := JObj [("error",
                              JStr "An internal error occurred while generating the report.");
                             ("details",
                              JStr "Cannot convert object to primitive value")] |},
     p1,
     (prelude ++
      [ ConsoleLog "Running analyst node...";
        ModelInvoke (report_model apiKey) q1 (Content a);
        ConsoleLog "Analyst node complete.";
        ConsoleLog "Running reporter node...";
        ConsoleError "Error generating report:"
          "Cannot convert object to primitive value" ])%list)
  /\ model_calls (generate_report generate apiKey body p).2 = [(q1, Content a)].
Proof.
  intros Hkey Hok Hq1 Hgen Hbad.
  assert (Hnone : reporter_prompt (analysed_state body a) = None).
  { apply (reporter_prompt_None _ a); [reflexivity|].
    destruct (analysed_state_fields body a) as (-> & -> & -> & -> & _).
    tauto. }
  rewrite generate_report_valid by assumption. cbn zeta.
  rewrite Hq1, Hgen, Hnone. split; reflexivity.
Qed.

(** X16: the handler sends no response exactly when a provider call never
    settles: that call is then the last thing the run did, nothing is logged
    as an error, and no error ever escapes the handler. *)
Theorem unsettled_call_leaves_no_response apiKey body p :
  ((generate_report generate apiKey body p).1.1 = Pending <->
   exists q, (q, Unsettled) ∈ model_calls (generate_report generate apiKey body p).2)
  /\ ((generate_report generate apiKey body p).1.1 = Pending ->
      logged_errors (generate_report generate apiKey body p).2 = []
      /\ exists before q,
           (generate_report generate apiKey body p).2
           = (before ++ [ModelInvoke (report_model apiKey) q Unsettled])%list)
  /\ (forall e, (generate_report generate apiKey body p).1.1 <> Throw e).
Proof.
  assert (Hanswered : forall (o : Outcome Response) (t : list Event),
            (forall q, (q, Unsettled) ∉ model_calls t) ->
            (exists response, o = Return response) ->
            (o = Pending <-> exists q, (q, Unsettled) ∈ model_calls t)
            /\ (o = Pending ->
                logged_errors t = []
                /\ exists before q,
                     t = (before ++ [ModelInvoke (report_model apiKey) q Unsettled])%list)
            /\ (forall e, o <> Throw e)).
  { intros o t Hnone [response ->].
    split; [split; [discriminate | intros [q Hin]; destruct (Hnone q Hin)]|].
    split; [discriminate | intros e; discriminate]. }
  handler_cases apiKey body p;
    try (apply Hanswered; [intros q; simpl; not_in_list | eexists; reflexivity]);
    simpl.
  - split; [split; [intros _; exists q2;
                    apply list_elem_of_further, list_elem_of_here
                   | reflexivity]|].
    split; [|intros e'; discriminate].
    intros _. split; [reflexivity|].
    exists (prelude ++
            [ ConsoleLog "Running analyst node...";
              ModelInvoke (report_model apiKey) q1 (Content a);
              ConsoleLog "Analyst node complete.";
              ConsoleLog "Running reporter node..." ])%list, q2.
    reflexivity.
  - split; [split; [intros _; exists q1; apply list_elem_of_here
                   | reflexivity]|].
    split; [|intros e'; discriminate].
    intros _. split; [reflexivity|].
    exists (prelude ++ [ConsoleLog "Running analyst node..."])%list, q1.
    reflexivity.
Qed.

End Further.

(** ** What reaches the provider, and how *)

Lemma no_control_append (a b : string) :
  no_control (a +:+ b) = no_control a && no_control b.
Proof.
  induction a as [|c a IH]; [reflexivity|].
  change (no_control (String c (a +:+ b))
          = no_control (String c a) && no_control b).
  simpl. rewrite IH. apply andb_assoc.
Qed.

Lemma no_control_join (sep : string) (pieces : list string) :
  no_control sep = true ->
  Forall (fun piece => no_control piece = true) pieces ->
  no_control (join sep pieces) = true.
Proof.
  intros Hsep. induction 1 as [|piece rest Hpiece Hrest IH]; [reflexivity|].
  destruct rest as [|next rest]; [exact Hpiece|].
  change (no_control (piece +:+ sep +:+ join sep (next :: rest)) = true).
  rewrite !no_control_append, Hpiece, Hsep, IH. reflexivity.
Qed.

Lemma no_control_pretty_N_go (x : N) (s : string) :
  no_control s = true -> no_control (pretty_N_go x s) = true.
Proof.
  revert s. induction (N.lt_wf_0 x) as [x _ IH]. intros s Hs.
  destruct (decide (x = 0)%N) as [->|Hpos]; [exact Hs|].
  rewrite pretty_N_go_step by lia.
  apply IH; [apply N.div_lt; lia|].
  simpl. rewrite Hs, andb_true_r.
  unfold pretty_N_char. repeat case_match; reflexivity.
Qed.

Lemma no_control_pretty_N (x : N) : no_control (pretty x) = true.
Proof.
  unfold pretty, pretty_N. case_decide; [reflexivity|].
  apply no_control_pretty_N_go. reflexivity.
Qed.

Lemma no_control_zeros (count : nat) : no_control (zeros count) = true.
Proof. induction count as [|count IH]; [reflexivity | exact IH]. Qed.

Lemma no_control_take (count : nat) (s : string) :
  no_control s = true -> no_control (string_take count s) = true.
Proof.
  revert s. induction count as [|count IH]; intros [|c s]; try reflexivity.
  simpl. rewrite !andb_true_iff. intros [Hc Hs]. auto.
Qed.

Lemma no_control_drop (count : nat) (s : string) :
  no_control s = true -> no_control (string_drop count s) = true.
Proof.
  revert s. induction count as [|count IH]; intros [|c s]; try (intros H; exact H).
  simpl. rewrite andb_true_iff. intros [_ Hs]. auto.
Qed.

(** The text of a number holds no character with a code below 32. *)
Lemma no_control_number (x : JsNumber) : no_control (number_to_string x) = true.
Proof.
  destruct x as [|negative s n|negative]; [reflexivity | | destruct negative; reflexivity].
  unfold number_to_string.
  pose proof (no_control_pretty_N (Npos s)) as Hd.
  set (digits := pretty (Npos s)) in *.
  rewrite no_control_append.
  replace (no_control (if negative then "-" else "")) with true
    by (destruct negative; reflexivity).
  cbn [andb].
  repeat case_match;
    rewrite ?no_control_append, ?no_control_zeros, ?no_control_pretty_N, ?Hd,
      ?no_control_take, ?no_control_drop by exact Hd;
    reflexivity.
Qed.

(** [QuoteJSONString] escapes every control character. *)
Lemma no_control_quote (s : string) : no_control (quote s) = true.
Proof.
  assert (Hchar : forall c, no_control (quote_char c) = true)
    by (intros [[] [] [] [] [] [] [] []]; reflexivity).
  assert (Hbody : no_control (quote_body s) = true).
  { induction s as [|c s IH]; [reflexivity|].
    simpl. rewrite no_control_append, Hchar, IH. reflexivity. }
  unfold quote.
  change (no_control (String dquote "" +:+ quote_body s +:+ String dquote "") = true).
  rewrite !no_control_append, Hbody. reflexivity.
Qed.

(** JSON.stringify writes no character with a code below 32, whatever the
    value. *)
Lemma stringify_no_control :
  forall (v : JsValue) (s : string), stringify v = Some s -> no_control s = true.
Proof.
  fix IH 1. intros v s.
  destruct v as [| |[]|n|str|elems|props]; simpl; intros Hs;
    try discriminate.
  - injection Hs as <-. reflexivity.
  - injection Hs as <-. reflexivity.
  - injection Hs as <-. reflexivity.
  - destruct n as [|negative digits places|negative]; injection Hs as <-;
      [ reflexivity
      | exact (no_control_number (Finite negative digits places))
      | reflexivity ].
  - injection Hs as <-. apply no_control_quote.
  - injection Hs as <-. rewrite !no_control_append. simpl. rewrite andb_true_r.
    apply no_control_join; [reflexivity|].
    induction elems as [|e elems IHelems]; constructor; [|exact IHelems].
    destruct (stringify e) as [t|] eqn:He; [exact (IH e t He) | reflexivity].
  - injection Hs as <-. rewrite !no_control_append. simpl. rewrite andb_true_r.
    apply no_control_join; [reflexivity|].
    induction props as [|[k e] props IHprops]; [constructor|].
    destruct (stringify e) as [t|] eqn:He; [|exact IHprops].
    constructor; [|exact IHprops].
    rewrite !no_control_append, no_control_quote, (IH e t He). reflexivity.
Qed.

Lemma json_text_no_control (v : JsValue) : no_control (json_text v) = true.
Proof.
  unfold json_text. destruct (stringify v) as [s|] eqn:Hs;
    [exact (stringify_no_control v s Hs) | reflexivity].
Qed.

Section Prompts.

Variable Provider : Type.
Variable generate :
  ChatGoogleGenerativeAI -> Provider -> string -> GenResult * Provider.

(** Every prompt the handler sends is the analyst prompt of the request or
    the reporter prompt of the request and some analysis; the first one is
    the analyst's. *)
Lemma calls_are_prompts apiKey body p :
  (forall q r,
     (q, r) ∈ model_calls (generate_report generate apiKey body p).2 ->
     analyst_prompt (request_state body) = Some q
     \/ exists a, reporter_prompt (analysed_state body a) = Some q)
  /\ (forall q r rest,
        model_calls (generate_report generate apiKey body p).2 = (q, r) :: rest ->
        analyst_prompt (request_state body) = Some q).
Proof.
  destruct (truthy apiKey) eqn:Hkey;
    [|rewrite !generate_report_no_key by assumption;
      split; [intros q r Hin; apply elem_of_nil in Hin; contradiction
             | intros q r rest [=]]].
  destruct (request_valid body) eqn:Hok;
    [|rewrite !generate_report_invalid by assumption;
      split; [intros q r Hin; apply elem_of_nil in Hin; contradiction
             | intros q r rest [=]]].
  rewrite !generate_report_valid by assumption. cbn zeta.
  destruct (analyst_prompt (request_state body)) as [q1|] eqn:Hq1;
    [|split; [intros q r Hin; apply elem_of_nil in Hin; contradiction
             | intros q r rest [=]]].
  assert (Hone : forall (r1 : GenResult) (q : string) (r : GenResult),
            (q, r) ∈ [(q1, r1)] ->
            Some q1 = Some q
            \/ exists a, reporter_prompt (analysed_state body a) = Some q).
  { intros r1 q r Hin. apply list_elem_of_singleton in Hin.
    injection Hin as -> _. left. reflexivity. }
  destruct (generate (report_model apiKey) p q1) as [[a|e|] p1];
    [|split; [apply Hone | intros q r rest [= <- _ _]; reflexivity]..].
  destruct (reporter_prompt (analysed_state body a)) as [q2|] eqn:Hq2;
    [|split; [apply Hone | intros q r rest [= <- _ _]; reflexivity]].
  destruct (generate (report_model apiKey) p1 q2) as [r2 p2].
  assert (Hcalls : forall t,
            model_calls (prelude ++ ConsoleLog "Running analyst node..."
                         :: ModelInvoke (report_model apiKey) q1 (Content a)
                         :: ConsoleLog "Analyst node complete."
                         :: ConsoleLog "Running reporter node..."
                         :: ModelInvoke (report_model apiKey) q2 r2 :: t)
            = (q1, Content a) :: (q2, r2) :: model_calls t) by reflexivity.
  destruct r2 as [r|e|]; cbn [snd]; rewrite (Hcalls _); cbn [model_calls omap list_omap];
    (split; [|intros q r0 rest [= <- _ _]; reflexivity]);
    intros q r0 Hin;
    (apply elem_of_cons in Hin as [[= -> _]|Hin]; [left; reflexivity|]);
    (apply elem_of_cons in Hin as [[= -> _]|Hin]; [right; eauto|]);
    simpl in Hin; apply elem_of_nil in Hin; contradiction.
Qed.

(** X9: the analyst prompt the handler sends holds the word list as its
    JSON.stringify text, followed by the end of the line, and that text has
    no character with a code below 32 (no line feed, carriage return or
    tab), whatever value of the model the request gave as incorrectWords. *)
Theorem word_list_stays_on_its_line apiKey body p q1 r1 rest :
  model_calls (generate_report generate apiKey body p).2 = (q1, r1) :: rest ->
  contains q1
    ("Incorrect words (correct -> student's attempt): "
     +:+ json_text (get_prop body "incorrectWords") +:+ nl)
  /\ no_control (json_text (get_prop body "incorrectWords")) = true.
Proof.
  intros Hcalls. split; [|apply json_text_no_control].
  destruct (calls_are_prompts apiKey body p) as [_ Hfirst].
  apply Hfirst in Hcalls.
  apply analyst_prompt_Some in Hcalls as (name & grade & _ & _ & ->).
  destruct (request_state_fields body) as (_ & _ & _ & _ & -> & _).
  unfold analyst_text. find_piece.
Qed.

(** X10: when studentName is a string, every prompt the handler sends to the
    provider holds it after its label exactly as the request gave it, with
    no escaping, up to the end of the line the template puts after it. *)
Theorem student_name_is_not_escaped apiKey body p name :
  get_prop body "studentName" = JStr name ->
  forall q r,
    (q, r) ∈ model_calls (generate_report generate apiKey body p).2 ->
    contains q ("Student: " +:+ name +:+ nl).
Proof.
  intros Hname q r Hin.
  destruct (calls_are_prompts apiKey body p) as [Hall _].
  destruct (Hall q r Hin) as [Hq|[a Hq]].
  - apply analyst_prompt_Some in Hq as (name' & grade & Hn & _ & ->).
    destruct (request_state_fields body) as (Hf & _).
    rewrite Hf, Hname in Hn. injection Hn as <-.
    unfold analyst_text. find_piece.
  - apply reporter_prompt_Some in Hq
      as (name' & grade & score & total & analysis & Hn & _ & _ & _ & _ & ->).
    destruct (analysed_state_fields body a) as (Hf & _).
    rewrite Hf, Hname in Hn. injection Hn as <-.
    unfold reporter_text. find_piece.
Qed.

End Prompts.

(** ** The channels of the graph state *)

Lemma find_channel_graphState (k : string) :
  match find_channel graphState k with
  | Some ch => k ∈ channel_names /\ forall x y, value ch x y = y
  | None => k ∉ channel_names
  end.
Proof.
  unfold graphState. cbn [find_channel].
  repeat match goal with
         | |- context [String.eqb ?name k] =>
             destruct (String.eqb_spec name k) as [<-|?]; cbv beta iota;
             [split; [apply (bool_decide_unpack _); vm_compute; exact I
                     | reflexivity]|]
         end.
  change channel_names
    with ["studentName"; "grade"; "score"; "totalItems"; "incorrectWords";
          "analysis"; "report"].
  rewrite !not_elem_of_cons. repeat split; try congruence.
  apply not_elem_of_nil.
Qed.

(** X12: each of the seven channels holds the value written to it last, whatever
    it held before, its default included; a property of an update that
    names no channel is not stored. *)
Theorem channels_keep_last_write
    (state : gmap string JsValue) (update : list (string * JsValue)) (k : string) :
  field (apply_update graphState state update) k
  = if bool_decide (k ∈ channel_names)
    then default (field state k) (last_write k update)
    else field state k.
Proof.
  revert state. induction update as [|[k' y] rest IH]; intros state.
  - simpl. case_bool_decide; reflexivity.
  - cbn [apply_update last_write].
    pose proof (find_channel_graphState k') as Hk'.
    destruct (find_channel graphState k') as [ch|]; rewrite IH.
    + destruct Hk' as [Hin Hlast].
      case_bool_decide as Hk.
      * destruct (last_write k rest); [reflexivity|]. cbn [default].
        unfold field.
        destruct (String.eqb_spec k' k) as [->|Hne].
        -- rewrite lookup_insert_eq. cbn [default]. apply Hlast.
        -- rewrite lookup_insert_ne by exact Hne. reflexivity.
      * unfold field. rewrite lookup_insert_ne by congruence. reflexivity.
    + case_bool_decide as Hk; [|reflexivity].
      destruct (last_write k rest); [reflexivity|].
      destruct (String.eqb_spec k' k) as [->|_]; [contradiction | reflexivity].
Qed.

(** ** The port *)

(** X13: the port is the PORT variable when it is set and not empty, and 8080
    when it is unset or empty: it is never a falsy value. *)
Theorem port_falls_back_to_8080 (env_port : option string) :
  truthy (PORT env_port) = true
  /\ (PORT env_port = JInt 8080 <-> env_port = None \/ env_port = Some "")
  /\ (PORT env_port <> JInt 8080 -> env_value env_port = PORT env_port).
Proof.
  destruct env_port as [[|c s]|]; cbn.
  - split; [reflexivity|]. split; [split; auto|]. intros H. contradiction.
  - split; [reflexivity|]. split; [|reflexivity].
    split; [discriminate | intros [[=]|[=]]].
  - split; [reflexivity|]. split; [split; auto|]. intros H. contradiction.
Qed.

(** ** The further properties on sample runs *)

(** A provider that never answers leaves the request at the analyst call. *)
Example silent_provider_run :
  generate_report silent test_key alex_request 0%nat
  = (Pending, 1%nat,
     (prelude ++
      [ ConsoleLog "Running analyst node...";
        ModelInvoke (report_model test_key)
          (analyst_text "Alex" "3"
             (json_text (get_prop alex_request "incorrectWords")))
          Unsettled ])%list).
Proof. vm_compute. reflexivity. Qed.

Lemma response_status_cases_witness :
  fields_convertible alex_request = true
  /\ exists response,
       (generate_report (scripted alex_analysis alex_report) test_key
          alex_request 0%nat).1.1 = Return response
       /\ (status response = 200 \/ status response = 400
           \/ status response = 500)%Z.
Proof.
  split; [reflexivity|].
  destruct (response_status_cases nat (scripted alex_analysis alex_report)
              test_key alex_request 0%nat eq_refl)
    as [[Hpending _]|(_ & response & Hrun & Hstatus & _)].
  - discriminate Hpending.
  - exists response. split; [exact Hrun | exact Hstatus].
Defined.

Lemma reporter_failure_is_500_witness :
  (generate_report (analysis_then_failure alex_analysis "429 Too Many Requests")
     test_key alex_request 0%nat).1
  = (Return (internal_error "429 Too Many Requests"), 2%nat)
  /\ model_calls
       (generate_report (analysis_then_failure alex_analysis "429 Too Many Requests")
          test_key alex_request 0%nat).2
     = [ (analyst_text "Alex" "3"
            (json_text (get_prop alex_request "incorrectWords")),
          Content alex_analysis);
         (reporter_text "Alex" "3" "7" "10" alex_analysis,
          Failure "429 Too Many Requests") ].
Proof.
  destruct (reporter_failure_is_500 nat
              (analysis_then_failure alex_analysis "429 Too Many Requests")
              test_key alex_request 0%nat
              (analyst_text "Alex" "3"
                 (json_text (get_prop alex_request "incorrectWords")))
              alex_analysis 1%nat
              (reporter_text "Alex" "3" "7" "10" alex_analysis)
              "429 Too Many Requests" 2%nat)
    as (Hrun & Hcalls & _);
    [reflexivity | reflexivity | reflexivity | reflexivity | reflexivity
    | reflexivity |].
  split; [exact Hrun | exact Hcalls].
Defined.

Lemma falsy_field_is_400_witness :
  get_prop alex_grade_zero "grade" = JInt 0
  /\ generate_report echo test_key alex_grade_zero 0%nat
     = (Return bad_request, 0%nat,
        [ConsoleLog "Received request to /api/generate-report"]).
Proof.
  split; [reflexivity|].
  apply (falsy_field_is_400 nat echo test_key alex_grade_zero 0%nat "grade");
    [reflexivity | apply (bool_decide_unpack _); vm_compute; exact I | reflexivity].
Defined.

Lemma only_required_fields_matter_witness :
  get_prop alex_with_extras "teacher" = JStr "Ms. Rivera"
  /\ generate_report echo test_key alex_request 0%nat
     = generate_report echo test_key alex_with_extras 0%nat.
Proof.
  split; [reflexivity|].
  apply (only_required_fields_matter nat echo test_key alex_request alex_with_extras).
  intros k Hk.
  repeat (apply elem_of_cons in Hk as [->|Hk]; [reflexivity|]).
  apply elem_of_nil in Hk. destruct Hk.
Defined.

Lemma analyst_prompt_ignores_score_witness :
  get_prop alex_request "score" = JInt 7
  /\ get_prop (alex_with_score (JInt 0)) "score" = JInt 0
  /\ analyst_prompt (request_state alex_request)
     = analyst_prompt (request_state (alex_with_score (JInt 0))).
Proof.
  split; [reflexivity|]. split; [reflexivity|].
  apply (analyst_prompt_ignores_score alex_request (alex_with_score (JInt 0)));
    reflexivity.
Defined.

Lemma reporter_prompt_ignores_words_witness :
  reporter_prompt (analysed_state alex_request alex_analysis)
  = reporter_prompt (analysed_state alex_other_words alex_analysis).
Proof.
  apply (reporter_prompt_ignores_words alex_request alex_other_words alex_analysis);
    reflexivity.
Defined.

Lemma word_list_stays_on_its_line_witness :
  contains
    (analyst_text "Alex" "3" (json_text (get_prop alex_request "incorrectWords")))
    ("Incorrect words (correct -> student's attempt): "
     +:+ json_text (get_prop alex_request "incorrectWords") +:+ nl)
  /\ no_control (json_text (get_prop alex_request "incorrectWords")) = true.
Proof.
  eapply (word_list_stays_on_its_line nat echo test_key alex_request 0%nat).
  reflexivity.
Defined.

Lemma student_name_is_not_escaped_witness :
  no_control two_line_name = false
  /\ contains (analyst_text two_line_name "3" "[]")
       ("Student: " +:+ two_line_name +:+ nl).
Proof.
  split; [reflexivity|].
  eapply (student_name_is_not_escaped nat echo test_key two_line_request 0%nat
            two_line_name eq_refl).
  let l := eval vm_compute in
    (model_calls (generate_report echo test_key two_line_request 0%nat).2) in
  change (model_calls (generate_report echo test_key two_line_request 0%nat).2)
    with l.
  apply list_elem_of_here.
Defined.

Lemma unconvertible_name_is_500_witness :
  request_valid (alex_with_name unprintable) = true
  /\ convertible (get_prop (alex_with_name unprintable) "studentName") = false
  /\ (generate_report echo test_key (alex_with_name unprintable) 0%nat).1
     = (Return (internal_error "Cannot convert object to primitive value"), 0%nat)
  /\ model_calls
       (generate_report echo test_key (alex_with_name unprintable) 0%nat).2 = [].
Proof.
  destruct (unconvertible_name_is_500 nat echo test_key
              (alex_with_name unprintable) 0%nat eq_refl eq_refl
              (or_introl eq_refl)) as [Hrun Hcalls].
  split; [reflexivity|]. split; [reflexivity|].
  split; [rewrite Hrun; reflexivity | exact Hcalls].
Defined.

Lemma unconvertible_score_is_500_witness :
  request_valid (alex_with_score unprintable) = true
  /\ (generate_report (scripted alex_analysis alex_report) test_key
        (alex_with_score unprintable) 0%nat).1
     = (Return (internal_error "Cannot convert object to primitive value"), 1%nat)
  /\ model_calls
       (generate_report (scripted alex_analysis alex_report) test_key
          (alex_with_score unprintable) 0%nat).2
     = [ (analyst_text "Alex" "3"
            (json_text (get_prop alex_request "incorrectWords")),
          Content alex_analysis) ].
Proof.
  destruct (unconvertible_score_is_500 nat (scripted alex_analysis alex_report)
              test_key (alex_with_score unprintable) 0%nat
              (analyst_text "Alex" "3"
                 (json_text (get_prop alex_request "incorrectWords")))
              alex_analysis 1%nat
              eq_refl eq_refl eq_refl eq_refl (or_introl eq_refl))
    as [Hrun Hcalls].
  split; [reflexivity|].
  split; [rewrite Hrun; reflexivity | exact Hcalls].
Defined.
